(** * pyflann: the ctypes binding of the FLANN nearest-neighbour library

    A shallow embedding of [pyflann/flann_ctypes.py]: the configuration
    structure ([CustomStructure], [FLANNParameters]), the discovery of the
    shared library ([load_flann_library]), the registration of the typed
    entry points ([define_functions] and the module body guarded by
    [flannlib is not None]) and [ensure_2d_array].  The index registry of
    the native engine, which the binding only calls, is modelled from the
    specification. *)

From Stdlib Require Import ZArith String List Bool Lia.
From Stdlib Require Import SpecFloat.
From stdpp Require Import base option list gmap strings.

Local Open Scope Z_scope.

(** ** Python values and exceptions *)

Module Py.

(** The values that reach the binding: [None], booleans, integers of
    unbounded size, floats (IEEE binary64) and strings. *)
Inductive pyval : Type :=
| PNone
| PBool (b : bool)
| PInt (z : Z)
| PFloat (f : spec_float)
| PStr (s : string).

Inductive exn : Type :=
| KeyError (msg : string)
| TypeError
| OverflowError
| AttributeError (name : string)
| ValueError
| OSError.

(** A call either returns or raises. *)
Inductive result (A : Type) : Type :=
| Ok (a : A)
| Raise (e : exn).
Arguments Ok {A} a.
Arguments Raise {A} e.

#[export] Instance result_ret : MRet result := fun _ a => Ok a.
#[export] Instance result_bind : MBind result := fun _ _ f m =>
  match m with
  | Ok a => f a
  | Raise e => Raise e
  end.

(** binary64 arithmetic, as Python floats have it *)
Definition prec64 : Z := 53.
Definition emax64 : Z := 1024.
Definition prec32 : Z := 24.
Definition emax32 : Z := 128.

Definition float_of_Z (z : Z) : spec_float :=
  binary_normalize prec64 emax64 z 0 false.

(** A decimal literal [n/d], correctly rounded to binary64. *)
Definition float_literal (n d : Z) : spec_float :=
  SFdiv prec64 emax64 (float_of_Z n) (float_of_Z d).

(** [float(z)] on an integer: raises [OverflowError] out of range. *)
Definition PyFloat_AsDouble (v : pyval) : result spec_float :=
  match v with
  | PFloat f => Ok f
  | PInt z =>
      match float_of_Z z with
      | S754_infinity _ => Raise OverflowError
      | f => Ok f
      end
  | PBool b => Ok (float_of_Z (Z.b2z b))
  | _ => Raise TypeError
  end.

(** The integer an object stands for where an index is required. *)
Definition as_integer (v : pyval) : result Z :=
  match v with
  | PInt z => Ok z
  | PBool b => Ok (Z.b2z b)
  | _ => Raise TypeError
  end.

(** Exact comparison of an integer with a float. *)
Definition Z_eq_float (z : Z) (f : spec_float) : bool :=
  match f with
  | S754_zero _ => Z.eqb z 0
  | S754_finite s m e =>
      let sm := cond_Zopp s (Zpos m) in
      if Z.leb 0 e then Z.eqb z (sm * 2 ^ e) else Z.eqb sm (z * 2 ^ (- e))
  | _ => false
  end.

(** Python's [==] on these values. *)
Definition py_eq (a b : pyval) : bool :=
  match a, b with
  | PNone, PNone => true
  | PStr s, PStr t => String.eqb s t
  | PFloat f, PFloat g => SFeqb f g
  | PFloat f, PInt z | PInt z, PFloat f => Z_eq_float z f
  | PFloat f, PBool c | PBool c, PFloat f => Z_eq_float (Z.b2z c) f
  | PInt y, PInt z => Z.eqb y z
  | PInt z, PBool c | PBool c, PInt z => Z.eqb z (Z.b2z c)
  | PBool c, PBool d => Bool.eqb c d
  | _, _ => false
  end.

(** A dict literal keeps its items in the order written; [k in d] and
    [d[k]] find the item whose key equals [k]. *)
Definition dict_get {V} (d : list (pyval * V)) (k : pyval) : option V :=
  snd <$> List.find (fun kv => py_eq (fst kv) k) d.

Fixpoint str_get {V} (d : list (string * V)) (k : string) : option V :=
  match d with
  | [] => None
  | (k', v) :: d' => if String.eqb k' k then Some v else str_get d' k
  end.

(** [k in names] for a list of strings *)
Definition str_in (k : string) (names : list string) : bool :=
  existsb (String.eqb k) names.

End Py.

(** ** ctypes fields *)

Module Ctypes.
Import Py.

(** The field types [FLANNParameters] uses. *)
Inductive ctype : Type := c_int | c_uint | c_long | c_float.

Definition wrap_unsigned (bits z : Z) : Z := z mod 2 ^ bits.

Definition wrap_signed (bits z : Z) : Z :=
  (z + 2 ^ (bits - 1)) mod 2 ^ bits - 2 ^ (bits - 1).

(** [c_long] has 64 bits on the LP64 platforms (Linux, macOS). *)
Definition long_bits : Z := 64.

(** The C cast [(float) f], read back as a Python float. *)
Definition to_single (f : spec_float) : spec_float :=
  match f with
  | S754_finite s m e =>
      match binary_normalize prec32 emax32 (cond_Zopp s (Zpos m)) e s with
      | S754_finite s' m' e' =>
          binary_normalize prec64 emax64 (cond_Zopp s' (Zpos m')) e' s'
      | g => g
      end
  | _ => f
  end.

(** What a field of type [ty] holds after [v] is assigned to it: integer
    fields take integers (no overflow check, the value is truncated to
    the field's width), [c_float] takes any number; everything else is a
    [TypeError]. *)
Definition c_set (ty : ctype) (v : pyval) : result pyval :=
  match ty with
  | c_int => z ← as_integer v; Ok (PInt (wrap_signed 32 z))
  | c_uint => z ← as_integer v; Ok (PInt (wrap_unsigned 32 z))
  | c_long => z ← as_integer v; Ok (PInt (wrap_signed long_bits z))
  | c_float => f ← PyFloat_AsDouble v; Ok (PFloat (to_single f))
  end.

(** A fresh structure is zero-filled. *)
Definition c_zero (ty : ctype) : pyval :=
  match ty with
  | c_float => PFloat (S754_zero false)
  | _ => PInt 0
  end.

End Ctypes.

(** ** CustomStructure and FLANNParameters *)

Module CustomStructure.
Import Py Ctypes.

(** The class attributes a subclass of [CustomStructure] declares. *)
Record class : Type := Class {
  _fields_ : list (string * ctype);
  _defaults_ : list (string * pyval);
  _translation_ : list (string * list (pyval * pyval))
}.

(** An instance: its class, the private list [__field_names] and its
    attributes (the typed fields of the structure, by name). *)
Record t : Type := Instance {
  klass : class;
  __field_names : list string;
  attrs : gmap string pyval
}.

Definition with_attrs (self : t) (a : gmap string pyval) : t :=
  {| klass := klass self; __field_names := __field_names self; attrs := a |}.

(** [setattr(self, k, v)]: a declared field converts the value to its C
    type; any other name is a plain attribute of the object. *)
Definition setattr (self : t) (k : string) (v : pyval) : result unit * t :=
  match str_get (_fields_ (klass self)) k with
  | Some ty =>
      match c_set ty v with
      | Ok c => (Ok tt, with_attrs self (<[k := c]> (attrs self)))
      | Raise e => (Raise e, self)
      end
  | None => (Ok tt, with_attrs self (<[k := v]> (attrs self)))
  end.

Definition getattr (self : t) (k : string) : result pyval :=
  match attrs self !! k with
  | Some v => Ok v
  | None => Raise (AttributeError k)
  end.

Definition __translate (self : t) (k : string) (v : pyval) : pyval :=
  match str_get (_translation_ (klass self)) k with
  | Some table =>
      match dict_get table v with
      | Some c => c
      | None => v
      end
  | None => v
  end.

Definition __translate_back (self : t) (k : string) (v : pyval) : pyval :=
  match str_get (_translation_ (klass self)) k with
  | Some table =>
      match List.find (fun item => py_eq (snd item) v) table with
      | Some (tk, _) => tk
      | None => v
      end
  | None => v
  end.

(** [update] leaves the structure as it is at the point where it raises. *)
Fixpoint update (self : t) (dict : list (string * pyval)) : result unit * t :=
  match dict with
  | [] => (Ok tt, self)
  | (k, v) :: rest =>
      if str_in k (__field_names self) then
        match setattr self k (__translate self k v) with
        | (Ok _, self') => update self' rest
        | (Raise e, self') => (Raise e, self')
        end
      else (Raise (KeyError ("No such member: " +:+ k)), self)
  end.

(** Falls off the end, so returns [None], for a name that is no field. *)
Definition __getitem__ (self : t) (k : string) : result pyval :=
  if str_in k (__field_names self) then
    v ← getattr self k; Ok (__translate_back self k v)
  else Ok PNone.

Definition __setitem__ (self : t) (k : string) (v : pyval) : result unit * t :=
  if str_in k (__field_names self) then setattr self k (__translate self k v)
  else (Raise (KeyError ("No such member: " +:+ k)), self).

Definition keys (self : t) : list string := __field_names self.

(** [Structure.__init__]: every declared field zero. *)
Definition Structure_init (cls : class) : t :=
  {| klass := cls;
     __field_names := [];
     attrs := list_to_map (List.map (fun ft => (fst ft, c_zero (snd ft))) (_fields_ cls)) |}.

Definition __init__ (cls : class) : result t :=
  let self := Structure_init cls in
  let self := {| klass := klass self;
                 __field_names := List.map fst (_fields_ cls);
                 attrs := attrs self |} in
  match update self (_defaults_ cls) with
  | (Ok _, self') => Ok self'
  | (Raise e, _) => Raise e
  end.

End CustomStructure.

Module FLANNParameters.
Import Py Ctypes CustomStructure.
Local Open Scope string_scope.

Definition fields : list (string * ctype) :=
  [ ("algorithm", c_int);
    ("checks", c_int);
    ("eps", c_float);
    ("sorted", c_int);
    ("max_neighbors", c_int);
    ("cores", c_int);
    ("trees", c_int);
    ("leaf_max_size", c_int);
    ("branching", c_int);
    ("iterations", c_int);
    ("centers_init", c_int);
    ("cb_index", c_float);
    ("target_precision", c_float);
    ("build_weight", c_float);
    ("memory_weight", c_float);
    ("sample_fraction", c_float);
    ("table_number_", c_uint);
    ("key_size_", c_uint);
    ("multi_probe_level_", c_uint);
    ("log_level", c_int);
    ("random_seed", c_long) ].

Definition defaults : list (string * pyval) :=
  [ ("algorithm", PStr "kdtree");
    ("checks", PInt 32);
    ("eps", PFloat (S754_zero false));
    ("sorted", PInt 1);
    ("max_neighbors", PInt (-1));
    ("cores", PInt 0);
    ("trees", PInt 1);
    ("leaf_max_size", PInt 4);
    ("branching", PInt 32);
    ("iterations", PInt 5);
    ("centers_init", PStr "random");
    ("cb_index", PFloat (float_literal 5 10));
    ("target_precision", PFloat (float_literal 9 10));
    ("build_weight", PFloat (float_literal 1 100));
    ("memory_weight", PFloat (S754_zero false));
    ("sample_fraction", PFloat (float_literal 1 10));
    ("table_number_", PInt 12);
    ("key_size_", PInt 20);
    ("multi_probe_level_", PInt 2);
    ("log_level", PStr "warning");
    ("random_seed", PInt (-1)) ].

(** The tables of [_translation_], one per translated field. *)
Definition algorithm_table : list (pyval * pyval) :=
  [ (PStr "linear", PInt 0);
    (PStr "kdtree", PInt 1);
    (PStr "kmeans", PInt 2);
    (PStr "composite", PInt 3);
    (PStr "kdtree_single", PInt 4);
    (PStr "hierarchical", PInt 5);
    (PStr "lsh", PInt 6);
    (PStr "saved", PInt 254);
    (PStr "autotuned", PInt 255);
    (PStr "default", PInt 1) ].

Definition centers_init_table : list (pyval * pyval) :=
  [ (PStr "random", PInt 0);
    (PStr "gonzales", PInt 1);
    (PStr "kmeanspp", PInt 2);
    (PStr "default", PInt 0) ].

Definition log_level_table : list (pyval * pyval) :=
  [ (PStr "none", PInt 0);
    (PStr "fatal", PInt 1);
    (PStr "error", PInt 2);
    (PStr "warning", PInt 3);
    (PStr "info", PInt 4);
    (PStr "default", PInt 2) ].

Definition translation : list (string * list (pyval * pyval)) :=
  [ ("algorithm", algorithm_table);
    ("centers_init", centers_init_table);
    ("log_level", log_level_table) ].

Definition FLANNParameters : class :=
  {| _fields_ := fields; _defaults_ := defaults; _translation_ := translation |}.

(** An object of class [FLANNParameters] whose fields hold [a]. *)
Definition instance (a : gmap string pyval) : t :=
  {| klass := FLANNParameters;
     __field_names := List.map fst fields;
     attrs := a |}.

End FLANNParameters.


(** ** Loading the shared library *)

Module Loader.
Import Py.
Local Open Scope string_scope.
Local Open Scope list_scope.

(** A path is a list of components, below the root or relative. *)
Inductive path : Type :=
| Abs (components : list string)
| Rel (components : list string).

Definition show (p : path) : string :=
  match p with
  | Abs cs => "/" +:+ String.concat "/" cs
  | Rel cs => String.concat "/" cs
  end.

(** The object [cdll[libpath]] gives: the symbols the library exports. *)
Record CDLL : Type := {
  _name : path;
  exports : string -> bool;
  repr : string
}.

(** What the function reads from the interpreter and the file system.
    [get_platform] is [None] when [distutils.util.get_platform()] raises,
    [cdll p] is [None] when loading [p] raises. *)
Record env : Type := {
  sys_argv : list string;
  sys_platform : string;
  sys_version : string;
  has_gettotalrefcount : bool;
  get_platform : option string;
  module_dir : list string;
  path_exists : path -> bool;
  cdll : path -> option CDLL
}.

Inductive event : Type :=
| Stdout (line : string)
| Warning (message : string).

Definition verbose (e : env) : bool :=
  str_in "--verbose" (sys_argv e)
  || str_in "--veryverbose" (sys_argv e)
  || str_in "--very-verbose" (sys_argv e)
  || str_in "--verbflann" (sys_argv e)
  || str_in "--verb-flann" (sys_argv e).

Definition say (e : env) (line : string) : list event :=
  if verbose e then [Stdout line] else [].

Definition possible_libnames (e : env) : list string :=
  if String.eqb (sys_platform e) "win32" then ["flann.dll"; "libflann.dll"]
  else if String.eqb (sys_platform e) "darwin" then ["libflann.dylib"]
  else ["libflann.so"].

Definition get_plat_specifier (e : env) : option string :=
  plat_name ← get_platform e;
  let plat_specifier := "." +:+ plat_name +:+ "-" +:+ String.substring 0 3 (sys_version e) in
  Some (if has_gettotalrefcount e then plat_specifier +:+ "-pydebug" else plat_specifier).

(** The two build directories are appended only when the platform
    specifier is available; the first [join] raises before any append
    otherwise. *)
Definition possible_subdirs (e : env) : list (list string) :=
  match get_plat_specifier e with
  | Some spec =>
      [ ["build"; "lib" +:+ spec; "pyflann"; "lib"];
        ["cmake_builds"; "build" +:+ spec; "lib"] ]
  | None => []
  end ++
  [ ["build"; "lib"; "pyflann"; "lib"];
    ["lib"];
    ["build"; "lib"] ].

(** The values [root_dir] takes: the directory and its parents, up to the
    root, which is its own [dirname]. The components are given innermost
    first. *)
Fixpoint root_dirs (rev_dir : list string) : list (list string) :=
  rev rev_dir ::
  match rev_dir with
  | [] => []
  | _ :: parent => root_dirs parent
  end.

Definition gen_possible_libpaths (e : env) : list path :=
  root_dir ← root_dirs (rev (module_dir e));
  subdir ← possible_subdirs e;
  libname ← possible_libnames e;
  [Abs (root_dir ++ subdir ++ [libname])].

(** The first loop: a path that exists and does not load re-raises. *)
Fixpoint try_libpaths (e : env) (paths : list path) : result (option CDLL) * list event :=
  match paths with
  | [] => (Ok None, [])
  | libpath :: rest =>
      let trying := say e ("[flann] Trying " +:+ show libpath) in
      match cdll e libpath with
      | Some lib => (Ok (Some lib), trying ++ say e "[flann] ... exists")
      | None =>
          if path_exists e libpath then
            (Raise OSError, trying ++ say e "[flann]... exists! CDLL error!")
          else
            let (r, out) := try_libpaths e rest in
            (r, trying ++ say e "[flann] ... does not exist" ++ out)
      end
  end.

(** The last resort: the bare library names, errors swallowed. *)
Fixpoint try_fallback (e : env) (names : list string) : option CDLL * list event :=
  match names with
  | [] => (None, [])
  | libpath :: rest =>
      let trying := say e ("[flann] Trying to fallback on " +:+ libpath) in
      match cdll e (Rel [libpath]) with
      | Some lib => (Some lib, trying)
      | None =>
          let (r, out) := try_fallback e rest in
          (r, trying ++ out)
      end
  end.

(** [tried_paths], which is only appended to, is left out. *)
Definition load_flann_library (e : env) : result (option CDLL) * list event :=
  let out0 := say e "[flann] Loading FLANN shared library" in
  match try_libpaths e (gen_possible_libpaths e) with
  | (Raise x, out1) => (Raise x, out0 ++ out1)
  | (Ok flannlib, out1) =>
      let (flannlib, out2) :=
        match flannlib with
        | None => try_fallback e (possible_libnames e)
        | Some lib => (Some lib, [])
        end in
      (Ok flannlib,
       out0 ++ out1 ++ out2 ++
       match flannlib with
       | None => [Warning "Unable to load C library for FLANN"]
       | Some lib => say e ("[flann] Using " +:+ repr lib)
       end)
  end.

(** Output that consists of printed lines only, no warning. *)
Definition only_prints (out : list event) : Prop :=
  Forall (fun ev => match ev with Stdout _ => True | Warning _ => False end) out.

End Loader.

(** ** Registration of the typed entry points *)

Module Binding.
Import Py Loader.
Local Open Scope string_scope.
Local Open Scope list_scope.

(** The numpy element types of [allowed_types]. *)
Inductive dtype : Type := float32 | float64 | uint8 | int32.

#[export] Instance dtype_eq_dec : EqDecision dtype.
Proof. solve_decision. Defined.

Definition allowed_types : list dtype := [float32; float64; uint8; int32].

(** The C name and the numpy type each instance of a template is made
    for; [eval] resolves the numpy name to the type imported from numpy. *)
Definition type_mappings : list (string * dtype) :=
  [ ("float", float32);
    ("double", float64);
    ("byte", uint8);
    ("int", int32) ].

(** Argument and result types of the native functions. *)
Inductive argtype : Type :=
| c_int
| c_float
| c_char_p
| c_void_p
| POINTER_c_float
| POINTER_FLANNParameters
| ndpointer (dt : dtype) (ndim : option nat) (flags : string).

Definition FLANN_INDEX : argtype := c_void_p.

(** A foreign function object: a fresh one returns [c_int] and has no
    argument types. [restype = None] is a function returning nothing. *)
Record funcptr : Type := {
  restype : option argtype;
  argtypes : option (list argtype)
}.

Definition fresh_funcptr : funcptr :=
  {| restype := Some c_int; argtypes := None |}.

(** What the module body builds: the function objects of [flannlib], by
    symbol, and the attributes of [flann], each a dict from a numpy type
    to a function of [flannlib], kept by its symbol since the dict and
    [flannlib] share the object. *)
Record bindings : Type := {
  functions : gmap string funcptr;
  flann : gmap string (list (dtype * string))
}.

Definition no_bindings : bindings := {| functions := ∅; flann := ∅ |}.

(** The statements of the module body and of the templates. *)
Inductive stmt : Type :=
| set_restype (sym : string) (ty : option argtype)
| set_argtypes (sym : string) (tys : list argtype)
| new_dict (attr : string)
| set_item (attr : string) (key : dtype) (sym : string).

(** [d[key] = v] on a dict: an existing key keeps its place. *)
Fixpoint dict_set (d : list (dtype * string)) (key : dtype) (v : string)
  : list (dtype * string) :=
  match d with
  | [] => [(key, v)]
  | (k, w) :: d' =>
      if decide (k = key) then (k, v) :: d' else (k, w) :: dict_set d' key v
  end.

Definition the_function (m : bindings) (sym : string) : funcptr :=
  default fresh_funcptr (functions m !! sym).

(** [exported] tells which symbols [flannlib] has; looking up any other
    raises [AttributeError]. *)
Definition exec (exported : string -> bool) (m : bindings) (s : stmt) : result bindings :=
  match s with
  | set_restype sym ty =>
      if exported sym then
        let f := the_function m sym in
        Ok {| functions := <[sym := {| restype := ty; argtypes := argtypes f |}]> (functions m);
              flann := flann m |}
      else Raise (AttributeError sym)
  | set_argtypes sym tys =>
      if exported sym then
        let f := the_function m sym in
        Ok {| functions := <[sym := {| restype := restype f; argtypes := Some tys |}]> (functions m);
              flann := flann m |}
      else Raise (AttributeError sym)
  | new_dict attr =>
      Ok {| functions := functions m; flann := <[attr := []]> (flann m) |}
  | set_item attr key sym =>
      if exported sym then
        match flann m !! attr with
        | Some d =>
            Ok {| functions := <[sym := the_function m sym]> (functions m);
                  flann := <[attr := dict_set d key sym]> (flann m) |}
        | None => Raise (AttributeError attr)
        end
      else Raise (AttributeError sym)
  end.

Fixpoint exec_all (exported : string -> bool) (m : bindings) (code : list stmt)
  : result bindings :=
  match code with
  | [] => Ok m
  | s :: code' => m' ← exec exported m s; exec_all exported m' code'
  end.

(** The name a numpy type is written with. *)
Definition name_of (numpy : dtype) : string :=
  match numpy with
  | float32 => "float32"
  | float64 => "float64"
  | uint8 => "uint8"
  | int32 => "int32"
  end.

(** A template: its text, and the statements the text consists of once
    [%(C)s] and [%(numpy)s] are filled in. *)
Record template : Type := {
  fmtstr : string;
  instance_of :> string -> dtype -> list stmt
}.

(** [fmtstr % {'C': C, 'numpy': numpy}] on a text whose only conversions
    are [%(C)s] and [%(numpy)s]; [skip] characters of a conversion are
    still to be dropped. *)
Fixpoint percent_format (skip : nat) (text C numpy : string) : string :=
  match text with
  | EmptyString => EmptyString
  | String c rest =>
      match skip with
      | S skip' => percent_format skip' rest C numpy
      | O =>
          if String.prefix "%(C)s" text then C +:+ percent_format 4 rest C numpy
          else if String.prefix "%(numpy)s" text then numpy +:+ percent_format 8 rest C numpy
          else String c (percent_format 0 rest C numpy)
      end
  end.

Definition source (t : template) (type_ : string * dtype) : string :=
  percent_format 0 (fmtstr t) (fst type_) (name_of (snd type_)).

(** What the handler of [AttributeError] prints before it raises again. *)
Definition error_block (t : template) (type_ : string * dtype) : list event :=
  [ Stdout "+=========";
    Stdout "Error compling code";
    Stdout "+ format string ---------";
    Stdout (fmtstr t);
    Stdout "+ failing instance ---------";
    Stdout (source t type_);
    Stdout "L_________" ].

(** One instance per entry of the mappings, in order, until one raises;
    an [AttributeError] is reported on the standard output and raised
    again, any other exception passes as it is. *)
Fixpoint define_each (exported : string -> bool) (fmtstr : template) (m : bindings)
    (mappings : list (string * dtype)) : result bindings * list event :=
  match mappings with
  | [] => (Ok m, [])
  | type_ :: rest =>
      match exec_all exported m (fmtstr (fst type_) (snd type_)) with
      | Ok m' => define_each exported fmtstr m' rest
      | Raise (AttributeError name) =>
          (Raise (AttributeError name), error_block fmtstr type_)
      | Raise x => (Raise x, [])
      end
  end.

Definition define_functions (exported : string -> bool) (fmtstr : template) (m : bindings)
  : result bindings * list event :=
  define_each exported fmtstr m type_mappings.

(** The templates, in the order of the module body. *)

Definition build_index_code : template :=
  {| fmtstr := "
flannlib.flann_build_index_%(C)s.restype = FLANN_INDEX
flannlib.flann_build_index_%(C)s.argtypes = [
    ndpointer(%(numpy)s, ndim=2, flags='aligned, c_contiguous'),  # dataset
    c_int,  # rows
    c_int,  # cols
    POINTER(c_float),  # speedup
    POINTER(FLANNParameters)  # flann_params
]
flann.build_index[%(numpy)s] = flannlib.flann_build_index_%(C)s
    ";
     instance_of := fun C numpy =>
  [ set_restype ("flann_build_index_" +:+ C) (Some FLANN_INDEX);
    set_argtypes ("flann_build_index_" +:+ C)
      [ ndpointer numpy (Some 2%nat) "aligned, c_contiguous";
        c_int;
        c_int;
        POINTER_c_float;
        POINTER_FLANNParameters ];
    set_item "build_index" numpy ("flann_build_index_" +:+ C) ] |}.

Definition used_memory_code : template :=
  {| fmtstr := "
flannlib.flann_used_memory_%(C)s.restype = c_int
flannlib.flann_used_memory_%(C)s.argtypes = [
        FLANN_INDEX,  # index_ptr
]
flann.used_memory[%(numpy)s] = flannlib.flann_used_memory_%(C)s
    ";
     instance_of := fun C numpy =>
  [ set_restype ("flann_used_memory_" +:+ C) (Some c_int);
    set_argtypes ("flann_used_memory_" +:+ C) [ FLANN_INDEX ];
    set_item "used_memory" numpy ("flann_used_memory_" +:+ C) ] |}.

Definition add_points_code : template :=
  {| fmtstr := "
flannlib.flann_add_points_%(C)s.restype = None
flannlib.flann_add_points_%(C)s.argtypes = [
        FLANN_INDEX, # index_id
        ndpointer(%(numpy)s, ndim = 2, flags='aligned, c_contiguous'), # dataset
        c_int, # rows
        c_int, # rebuild_threshhold
]
flann.add_points[%(numpy)s] = flannlib.flann_add_points_%(C)s
    ";
     instance_of := fun C numpy =>
  [ set_restype ("flann_add_points_" +:+ C) None;
    set_argtypes ("flann_add_points_" +:+ C)
      [ FLANN_INDEX;
        ndpointer numpy (Some 2%nat) "aligned, c_contiguous";
        c_int;
        c_int ];
    set_item "add_points" numpy ("flann_add_points_" +:+ C) ] |}.

Definition remove_point_code : template :=
  {| fmtstr := "
flannlib.flann_remove_point_%(C)s.restype = None
flannlib.flann_remove_point_%(C)s.argtypes = [
        FLANN_INDEX,  # index_ptr
        c_int,  # id_
]
flann.remove_point[%(numpy)s] = flannlib.flann_remove_point_%(C)s
    ";
     instance_of := fun C numpy =>
  [ set_restype ("flann_remove_point_" +:+ C) None;
    set_argtypes ("flann_remove_point_" +:+ C) [ FLANN_INDEX; c_int ];
    set_item "remove_point" numpy ("flann_remove_point_" +:+ C) ] |}.

Definition save_index_code : template :=
  {| fmtstr := "
flannlib.flann_save_index_%(C)s.restype = None
flannlib.flann_save_index_%(C)s.argtypes = [
        FLANN_INDEX,  # index_id
        c_char_p #filename
]
flann.save_index[%(numpy)s] = flannlib.flann_save_index_%(C)s
    ";
     instance_of := fun C numpy =>
  [ set_restype ("flann_save_index_" +:+ C) None;
    set_argtypes ("flann_save_index_" +:+ C) [ FLANN_INDEX; c_char_p ];
    set_item "save_index" numpy ("flann_save_index_" +:+ C) ] |}.

Definition load_index_code : template :=
  {| fmtstr := "
flannlib.flann_load_index_%(C)s.restype = FLANN_INDEX
flannlib.flann_load_index_%(C)s.argtypes = [
        c_char_p,  #filename
        ndpointer(%(numpy)s, ndim=2, flags='aligned, c_contiguous'),  # dataset
        c_int,  # rows
        c_int,  # cols
]
flann.load_index[%(numpy)s] = flannlib.flann_load_index_%(C)s
    ";
     instance_of := fun C numpy =>
  [ set_restype ("flann_load_index_" +:+ C) (Some FLANN_INDEX);
    set_argtypes ("flann_load_index_" +:+ C)
      [ c_char_p;
        ndpointer numpy (Some 2%nat) "aligned, c_contiguous";
        c_int;
        c_int ];
    set_item "load_index" numpy ("flann_load_index_" +:+ C) ] |}.

(** The arguments of [flann_find_nearest_neighbors_<C>] whose distances
    have element type [dists]. *)
Definition find_nearest_neighbors_argtypes (numpy dists : dtype) : list argtype :=
  [ ndpointer numpy (Some 2%nat) "aligned, c_contiguous";
    c_int;
    c_int;
    ndpointer numpy (Some 2%nat) "aligned, c_contiguous";
    c_int;
    ndpointer int32 (Some 2%nat) "aligned, c_contiguous, writeable";
    ndpointer dists (Some 2%nat) "aligned, c_contiguous, writeable";
    c_int;
    POINTER_FLANNParameters ].

Definition find_nearest_neighbors_code : template :=
  {| fmtstr := "
flannlib.flann_find_nearest_neighbors_%(C)s.restype = c_int
flannlib.flann_find_nearest_neighbors_%(C)s.argtypes = [
        ndpointer(%(numpy)s, ndim=2, flags='aligned, c_contiguous'),  # dataset
        c_int,  # rows
        c_int,  # cols
        ndpointer(%(numpy)s, ndim=2, flags='aligned, c_contiguous'),  # testset
        c_int,  # tcount
        ndpointer(int32, ndim=2, flags='aligned, c_contiguous, writeable'),  # result
        ndpointer(float32, ndim=2, flags='aligned, c_contiguous, writeable'),  # dists
        c_int,  # nn
        POINTER(FLANNParameters)  # flann_params
]
flann.find_nearest_neighbors[%(numpy)s] = flannlib.flann_find_nearest_neighbors_%(C)s
    ";
     instance_of := fun C numpy =>
  [ set_restype ("flann_find_nearest_neighbors_" +:+ C) (Some c_int);
    set_argtypes ("flann_find_nearest_neighbors_" +:+ C)
      (find_nearest_neighbors_argtypes numpy float32);
    set_item "find_nearest_neighbors" numpy ("flann_find_nearest_neighbors_" +:+ C) ] |}.

Definition find_nearest_neighbors_index_argtypes (numpy dists : dtype) : list argtype :=
  [ FLANN_INDEX;
    ndpointer numpy (Some 2%nat) "aligned, c_contiguous";
    c_int;
    ndpointer int32 (Some 2%nat) "aligned, c_contiguous, writeable";
    ndpointer dists (Some 2%nat) "aligned, c_contiguous, writeable";
    c_int;
    POINTER_FLANNParameters ].

Definition find_nearest_neighbors_index_code : template :=
  {| fmtstr := "
flannlib.flann_find_nearest_neighbors_index_%(C)s.restype = c_int
flannlib.flann_find_nearest_neighbors_index_%(C)s.argtypes = [
        FLANN_INDEX,  # index_id
        ndpointer(%(numpy)s, ndim=2, flags='aligned, c_contiguous'),  # testset
        c_int,  # tcount
        ndpointer(int32, ndim=2, flags='aligned, c_contiguous, writeable'),  # result
        ndpointer(float32, ndim=2, flags='aligned, c_contiguous, writeable'),  # dists
        c_int,  # nn
        POINTER(FLANNParameters) # flann_params
]
flann.find_nearest_neighbors_index[%(numpy)s] = flannlib.flann_find_nearest_neighbors_index_%(C)s
    ";
     instance_of := fun C numpy =>
  [ set_restype ("flann_find_nearest_neighbors_index_" +:+ C) (Some c_int);
    set_argtypes ("flann_find_nearest_neighbors_index_" +:+ C)
      (find_nearest_neighbors_index_argtypes numpy float32);
    set_item "find_nearest_neighbors_index" numpy
      ("flann_find_nearest_neighbors_index_" +:+ C) ] |}.

Definition radius_search_argtypes (numpy dists : dtype) : list argtype :=
  [ FLANN_INDEX;
    ndpointer numpy (Some 1%nat) "aligned, c_contiguous";
    ndpointer int32 (Some 1%nat) "aligned, c_contiguous, writeable";
    ndpointer dists (Some 1%nat) "aligned, c_contiguous, writeable";
    c_int;
    c_float;
    POINTER_FLANNParameters ].

Definition radius_search_code : template :=
  {| fmtstr := "
flannlib.flann_radius_search_%(C)s.restype = c_int
flannlib.flann_radius_search_%(C)s.argtypes = [
        FLANN_INDEX,  # index_id
        ndpointer(%(numpy)s, ndim=1, flags='aligned, c_contiguous'),  # query
        ndpointer(int32, ndim=1, flags='aligned, c_contiguous, writeable'),  # indices
        ndpointer(float32, ndim=1, flags='aligned, c_contiguous, writeable'),  # dists
        c_int,  # max_nn
        c_float,  # radius
        POINTER(FLANNParameters) # flann_params
]
flann.radius_search[%(numpy)s] = flannlib.flann_radius_search_%(C)s
    ";
     instance_of := fun C numpy =>
  [ set_restype ("flann_radius_search_" +:+ C) (Some c_int);
    set_argtypes ("flann_radius_search_" +:+ C) (radius_search_argtypes numpy float32);
    set_item "radius_search" numpy ("flann_radius_search_" +:+ C) ] |}.

Definition compute_cluster_centers_argtypes (numpy result : dtype) : list argtype :=
  [ ndpointer numpy (Some 2%nat) "aligned, c_contiguous";
    c_int;
    c_int;
    c_int;
    ndpointer result None "aligned, c_contiguous, writeable";
    POINTER_FLANNParameters ].

Definition compute_cluster_centers_code : template :=
  {| fmtstr := "
flannlib.flann_compute_cluster_centers_%(C)s.restype = c_int
flannlib.flann_compute_cluster_centers_%(C)s.argtypes = [
        ndpointer(%(numpy)s, ndim=2, flags='aligned, c_contiguous'),  # dataset
        c_int,  # rows
        c_int,  # cols
        c_int,  # clusters
        ndpointer(float32, flags='aligned, c_contiguous, writeable'),  # result
        POINTER(FLANNParameters)  # flann_params
]
flann.compute_cluster_centers[%(numpy)s] = flannlib.flann_compute_cluster_centers_%(C)s
    ";
     instance_of := fun C numpy =>
  [ set_restype ("flann_compute_cluster_centers_" +:+ C) (Some c_int);
    set_argtypes ("flann_compute_cluster_centers_" +:+ C)
      (compute_cluster_centers_argtypes numpy float32);
    set_item "compute_cluster_centers" numpy ("flann_compute_cluster_centers_" +:+ C) ] |}.

Definition free_index_code : template :=
  {| fmtstr := "
flannlib.flann_free_index_%(C)s.restype = None
flannlib.flann_free_index_%(C)s.argtypes = [
        FLANN_INDEX,  # index_id
        POINTER(FLANNParameters) # flann_params
]
flann.free_index[%(numpy)s] = flannlib.flann_free_index_%(C)s
    ";
     instance_of := fun C numpy =>
  [ set_restype ("flann_free_index_" +:+ C) None;
    set_argtypes ("flann_free_index_" +:+ C) [ FLANN_INDEX; POINTER_FLANNParameters ];
    set_item "free_index" numpy ("flann_free_index_" +:+ C) ] |}.

(** The statements written out for the [double] case after the search
    templates. *)
Definition find_nearest_neighbors_double : list stmt :=
  [ set_restype "flann_find_nearest_neighbors_double" (Some c_int);
    set_argtypes "flann_find_nearest_neighbors_double"
      (find_nearest_neighbors_argtypes float64 float64);
    set_item "find_nearest_neighbors" float64 "flann_find_nearest_neighbors_double" ].

Definition find_nearest_neighbors_index_double : list stmt :=
  [ set_restype "flann_find_nearest_neighbors_index_double" (Some c_int);
    set_argtypes "flann_find_nearest_neighbors_index_double"
      (find_nearest_neighbors_index_argtypes float64 float64);
    set_item "find_nearest_neighbors_index" float64
      "flann_find_nearest_neighbors_index_double" ].

Definition radius_search_double : list stmt :=
  [ set_restype "flann_radius_search_double" (Some c_int);
    set_argtypes "flann_radius_search_double" (radius_search_argtypes float64 float64);
    set_item "radius_search" float64 "flann_radius_search_double" ].

Definition compute_cluster_centers_double : list stmt :=
  [ set_restype "flann_compute_cluster_centers_double" (Some c_int);
    set_argtypes "flann_compute_cluster_centers_double"
      (compute_cluster_centers_argtypes float64 float64);
    set_item "compute_cluster_centers" float64 "flann_compute_cluster_centers_double" ].

(** The body under [if flannlib is not None], top to bottom. *)
Inductive step : Type :=
| Do (code : list stmt)
| Define (fmtstr : template).

Definition module_body : list step :=
  [ Do [ set_restype "flann_log_verbosity" None;
         set_argtypes "flann_log_verbosity" [ c_int ];
         set_restype "flann_set_distance_type" None;
         set_argtypes "flann_set_distance_type" [ c_int; c_int ] ];
    Do [ new_dict "build_index" ]; Define build_index_code;
    Do [ new_dict "used_memory" ]; Define used_memory_code;
    Do [ new_dict "add_points" ]; Define add_points_code;
    Do [ new_dict "remove_point" ]; Define remove_point_code;
    Do [ new_dict "save_index" ]; Define save_index_code;
    Do [ new_dict "load_index" ]; Define load_index_code;
    Do [ new_dict "find_nearest_neighbors" ]; Define find_nearest_neighbors_code;
    Do find_nearest_neighbors_double;
    Do [ new_dict "find_nearest_neighbors_index" ]; Define find_nearest_neighbors_index_code;
    Do find_nearest_neighbors_index_double;
    Do [ new_dict "radius_search" ]; Define radius_search_code;
    Do radius_search_double;
    Do [ new_dict "compute_cluster_centers" ]; Define compute_cluster_centers_code;
    Do compute_cluster_centers_double;
    Do [ new_dict "free_index" ]; Define free_index_code ].

Definition run_step (exported : string -> bool) (m : bindings) (s : step)
  : result bindings * list event :=
  match s with
  | Do code => (exec_all exported m code, [])
  | Define fmtstr => define_functions exported fmtstr m
  end.

Fixpoint run (exported : string -> bool) (m : bindings) (body : list step)
  : result bindings * list event :=
  match body with
  | [] => (Ok m, [])
  | s :: body' =>
      match run_step exported m s with
      | (Ok m', out) =>
          let (r, out') := run exported m' body' in (r, out ++ out')
      | (Raise x, out) => (Raise x, out)
      end
  end.

(** The module once imported: the library, or [None], and what was
    registered. *)
Record module : Type := {
  flannlib : option CDLL;
  registered : bindings
}.

(** Importing the module: [flannlib = load_flann_library()], [flann =
    FlannLib()], then the guarded body. *)
Definition import_module (e : env) : result module * list event :=
  match load_flann_library e with
  | (Raise x, out) => (Raise x, out)
  | (Ok None, out) => (Ok {| flannlib := None; registered := no_bindings |}, out)
  | (Ok (Some lib), out) =>
      let (r, printed) := run (exports lib) no_bindings module_body in
      (m ← r; Ok {| flannlib := Some lib; registered := m |}, out ++ printed)
  end.

(** The attributes of [flann] the body creates. *)
Definition families : list string :=
  [ "build_index"; "used_memory"; "add_points"; "remove_point"; "save_index";
    "load_index"; "find_nearest_neighbors"; "find_nearest_neighbors_index";
    "radius_search"; "compute_cluster_centers"; "free_index" ].

(** A library that exports every symbol, and what the body registers on
    it. *)
Definition everything : string -> bool := fun _ => true.

Definition all_bindings : bindings :=
  match fst (run everything no_bindings module_body) with
  | Ok m => m
  | Raise _ => no_bindings
  end.

(** A function object whose argument types have been declared. *)
Definition is_typed (f : option funcptr) : Prop :=
  exists g tys, f = Some g /\ argtypes g = Some tys.

#[export] Instance is_typed_dec (f : option funcptr) : Decision (is_typed f).
Proof.
  refine (match f with
          | Some {| restype := r; argtypes := Some tys |} => left _
          | _ => right _
          end); unfold is_typed.
  - by eexists _, _.
  - intros (g & tys' & [= <-] & H). discriminate H.
  - intros (g & tys' & H & _). discriminate H.
Defined.

(** The check of one dispatch dict: its keys are the element types, in
    the order of [allowed_types], and every value is a function of
    [flannlib] with declared argument types. *)
Definition complete_dict (m : bindings) (family : string) : bool :=
  match flann m !! family with
  | Some d =>
      bool_decide (d.*1 = allowed_types)
      && forallb (fun item => bool_decide (is_typed (functions m !! snd item))) d
  | None => false
  end.

(** The search functions: the attribute of [flann], the prefix of the
    symbols, the template, the statements for [double] that follow it and
    the argument types by element type and output type. *)
Record search_family : Type := {
  attr : string;
  prefix : string;
  code : template;
  double_code : list stmt;
  signature : dtype -> dtype -> list argtype
}.

Definition search_families : list search_family :=
  [ {| attr := "find_nearest_neighbors";
       prefix := "flann_find_nearest_neighbors_";
       code := find_nearest_neighbors_code;
       double_code := find_nearest_neighbors_double;
       signature := find_nearest_neighbors_argtypes |};
    {| attr := "find_nearest_neighbors_index";
       prefix := "flann_find_nearest_neighbors_index_";
       code := find_nearest_neighbors_index_code;
       double_code := find_nearest_neighbors_index_double;
       signature := find_nearest_neighbors_index_argtypes |};
    {| attr := "radius_search";
       prefix := "flann_radius_search_";
       code := radius_search_code;
       double_code := radius_search_double;
       signature := radius_search_argtypes |};
    {| attr := "compute_cluster_centers";
       prefix := "flann_compute_cluster_centers_";
       code := compute_cluster_centers_code;
       double_code := compute_cluster_centers_double;
       signature := compute_cluster_centers_argtypes |} ].

(** The element types of the floating-point arrays a function writes to:
    the distances of a search, the centers of a clustering. *)
Definition float_outputs (tys : list argtype) : list dtype :=
  omap (fun ty =>
          match ty with
          | ndpointer float32 _ "aligned, c_contiguous, writeable" => Some float32
          | ndpointer float64 _ "aligned, c_contiguous, writeable" => Some float64
          | _ => None
          end) tys.

(** A function returning [c_int] with the given argument types. *)
Definition typed (tys : list argtype) : funcptr :=
  {| restype := Some c_int; argtypes := Some tys |}.

End Binding.

(** ** ensure_2d_array *)

Module Arrays.
Import Py.

Section Arrays.

(** The element type, and the keyword arguments handed on to [require]. *)
Variables A kwargs : Type.

(** An array: its shape and its elements in C (row-major) order. *)
Record ndarray : Type := {
  shape : list nat;
  data : list A
}.

(** [arr.size], the product of the dimensions. *)
Definition size (arr : ndarray) : nat := foldr Nat.mul 1%nat (shape arr).

(** [numpy.require], which converts its argument to an array that meets
    the requirements, or raises. *)
Variable require : ndarray -> list string -> kwargs -> result ndarray.

(** [arr.reshape(newshape)]: at most one dimension may be left open (given
    negative); it is the size divided by the product of the others, which
    must be a non-zero divisor of the size. The elements stay in order. *)
Definition reshape (arr : ndarray) (newshape : list Z) : result ndarray :=
  let s_original := Z.of_nat (size arr) in
  let s_known := foldr Z.mul 1 (List.filter (fun d => 0 <=? d) newshape) in
  match List.filter (fun d => d <? 0) newshape with
  | [] =>
      if s_original =? s_known
      then Ok {| shape := List.map Z.to_nat newshape; data := data arr |}
      else Raise ValueError
  | [_] =>
      if (s_known =? 0) || negb (s_original mod s_known =? 0)
      then Raise ValueError
      else Ok {| shape := List.map (fun d => Z.to_nat (if d <? 0 then s_original / s_known else d))
                                   newshape;
                 data := data arr |}
  | _ => Raise ValueError
  end.

Definition ensure_2d_array (arr : ndarray) (flags : list string) (kw : kwargs)
  : result ndarray :=
  arr ← require arr flags kw;
  arr ← (if Nat.eqb (length (shape arr)) 1
         then reshape arr [-1; Z.of_nat (size arr)]
         else Ok arr);
  Ok arr.

End Arrays.

Arguments shape {A} _.
Arguments data {A} _.
Arguments size {A} _.
Arguments reshape {A} _ _.
Arguments ensure_2d_array {A kwargs} _ _ _ _.

Definition default_flags : list string := ["C_CONTIGUOUS"; "ALIGNED"]%string.

End Arrays.

(** ** The index registry of the native engine *)

Module Registry.

(** Modelled from the spec: the capability set of an index structure
    (section 4.2), whose implementations are in the native engine and not
    among the sources of the binding. *)
Record engine : Type := {
  index : Type;
  dataset : Type;
  query : Type;
  answer : Type;
  build_index : dataset -> index;
  find_nearest_neighbors_index : index -> query -> answer;
  add_points : index -> dataset -> index;
  remove_point : index -> nat -> index;
  used_memory : index -> nat
}.

Section Registry.

Context {E : engine}.

(** Modelled from the spec: the index registry of the native engine
    (sections 3, 4.5 and 9), whose code is not among the sources of the
    binding. It owns the mapping from handle to live index instance;
    handles are small integers handed out in order; [files] holds the
    saved indexes. *)
Record registry : Type := {
  live : gmap nat (index E);
  next_handle : nat;
  files : gmap string (index E)
}.

(** Modelled from the spec: the registry of a process that has built
    nothing yet. *)
Definition empty_registry : registry :=
  {| live := ∅; next_handle := 0; files := ∅ |}.

(** Modelled from the spec: the calls into the engine (section 4.2). *)
Inductive call : Type :=
| BuildIndex (d : dataset E)
| LoadIndex (filename : string) (d : dataset E)
| FreeIndex (h : nat)
| FindNeighbors (h : nat) (q : query E)
| AddPoints (h : nat) (points : dataset E)
| RemovePoint (h : nat) (id : nat)
| SaveIndex (h : nat) (filename : string)
| UsedMemory (h : nat).

(** Modelled from the spec: what a call gives back; [HandleError] is the
    distinct error kind of section 7(c). *)
Inductive reply : Type :=
| Handle (h : nat)
| Neighbors (a : answer E)
| Bytes (n : nat)
| Done
| HandleError
| FileError.

(** Modelled from the spec: a build or a load allocates a new handle
    (section 4.5). *)
Definition allocate (r : registry) (i : index E) : reply * registry :=
  (Handle (next_handle r),
   {| live := <[next_handle r := i]> (live r);
      next_handle := S (next_handle r);
      files := files r |}).

(** Modelled from the spec: the registry with its table replaced. *)
Definition with_live (r : registry) (l : gmap nat (index E)) : registry :=
  {| live := l; next_handle := next_handle r; files := files r |}.

(** Modelled from the spec: one call into the engine. Free removes the
    handle and releases the instance; every operation on a handle that is
    not in the table is rejected with the handle error (sections 4.5 and
    7(c)). *)
Definition step (r : registry) (c : call) : reply * registry :=
  match c with
  | BuildIndex d => allocate r (build_index E d)
  | LoadIndex filename d =>
      match files r !! filename with
      | Some i => allocate r i
      | None => (FileError, r)
      end
  | FreeIndex h =>
      match live r !! h with
      | Some _ => (Done, with_live r (delete h (live r)))
      | None => (HandleError, r)
      end
  | FindNeighbors h q =>
      match live r !! h with
      | Some i => (Neighbors (find_nearest_neighbors_index E i q), r)
      | None => (HandleError, r)
      end
  | AddPoints h points =>
      match live r !! h with
      | Some i => (Done, with_live r (<[h := add_points E i points]> (live r)))
      | None => (HandleError, r)
      end
  | RemovePoint h id =>
      match live r !! h with
      | Some i => (Done, with_live r (<[h := remove_point E i id]> (live r)))
      | None => (HandleError, r)
      end
  | SaveIndex h filename =>
      match live r !! h with
      | Some i =>
          (Done, {| live := live r; next_handle := next_handle r;
                    files := <[filename := i]> (files r) |})
      | None => (HandleError, r)
      end
  | UsedMemory h =>
      match live r !! h with
      | Some i => (Bytes (used_memory E i), r)
      | None => (HandleError, r)
      end
  end.

(** Modelled from the spec: the registry after a sequence of calls. *)
Definition run (r : registry) (calls : list call) : registry :=
  foldl (fun r c => snd (step r c)) r calls.

(** Modelled from the spec: the operations on a handle that section 8
    lists (search, add, remove, save, usedMemory). *)
Definition operation_on (h : nat) (c : call) : bool :=
  match c with
  | FindNeighbors h' _ | AddPoints h' _ | RemovePoint h' _ | SaveIndex h' _
  | UsedMemory h' => Nat.eqb h h'
  | _ => false
  end.

(** Modelled from the spec: the registries a process can be in. *)
Inductive reachable : registry -> Prop :=
| reachable_empty : reachable empty_registry
| reachable_step r c : reachable r -> reachable (snd (step r c)).

(** Every live handle was handed out before. *)
Definition handles_below_next (r : registry) : Prop :=
  forall h : nat, is_Some (live r !! h) -> (h < next_handle r)%nat.

(** A handle that was handed out and is no longer in the table. *)
Definition stale (h : nat) (r : registry) : Prop :=
  live r !! h = None /\ (h < next_handle r)%nat.

End Registry.

Arguments registry : clear implicits.
Arguments call : clear implicits.
Arguments reply : clear implicits.

End Registry.

(** ** Notions the further properties are stated with *)

Module Derived.
Import Py Ctypes CustomStructure FLANNParameters Loader Binding Arrays.
Local Open Scope string_scope.
Local Open Scope list_scope.

(** The structure after one [update] after the other, whether or not
    they raise. *)
Definition updates (self : CustomStructure.t) (dicts : list (list (string * pyval)))
  : CustomStructure.t :=
  foldl (fun s d => snd (update s d)) self dicts.

(** Every name of [__field_names] is an attribute of the object. *)
Definition has_fields (self : CustomStructure.t) : Prop :=
  forall k, k ∈ __field_names self -> is_Some (attrs self !! k).

#[export] Instance spec_float_eq_dec : EqDecision spec_float.
Proof. solve_decision. Defined.

#[export] Instance pyval_eq_dec : EqDecision pyval.
Proof. solve_decision. Defined.

#[export] Instance exn_eq_dec : EqDecision exn.
Proof. solve_decision. Defined.

#[export] Instance result_eq_dec {A} `{EqDecision A} : EqDecision (result A).
Proof. solve_decision. Defined.

(** What a field assigned the default [v] reads back as: a float comes
    back as the single-precision number the field holds. *)
Definition as_stored (v : pyval) : pyval :=
  match v with
  | PFloat f => PFloat (to_single f)
  | _ => v
  end.

(** The codes of a translation table. *)
Definition codes (table : list (pyval * pyval)) : list pyval := table.*2.

(** The symbol of [flannlib] a statement looks up, if any. *)
Definition symbol_of (s : stmt) : option string :=
  match s with
  | set_restype sym _ | set_argtypes sym _ | set_item _ _ sym => Some sym
  | new_dict _ => None
  end.

(** The statements a body executes, templates instantiated. *)
Definition instances (fmtstr : template) : list stmt :=
  concat (List.map (fun type_ => fmtstr (fst type_) (snd type_)) type_mappings).

Definition statements (body : list step) : list stmt :=
  concat (List.map (fun s => match s with
                             | Do code => code
                             | Define fmtstr => instances fmtstr
                             end) body).

(** The symbols the module body looks up, in the order it does. *)
Definition required_symbols : list string := omap symbol_of (statements module_body).

(** The first symbol among those statements look up that is not
    exported. *)
Definition missing_in (exported : string -> bool) (code : list stmt) : option string :=
  List.find (fun sym => negb (exported sym)) (omap symbol_of code).

(** Where a body fails on a library: the symbol it does not find and what
    has been printed when the exception leaves the body; a statement of
    the body itself prints nothing, an instance of a template its error
    block. *)
Fixpoint failing_instance (exported : string -> bool) (fmtstr : template)
    (mappings : list (string * dtype)) : option (string * list event) :=
  match mappings with
  | [] => None
  | type_ :: rest =>
      match missing_in exported (fmtstr (fst type_) (snd type_)) with
      | Some sym => Some (sym, error_block fmtstr type_)
      | None => failing_instance exported fmtstr rest
      end
  end.

Fixpoint first_failure (exported : string -> bool) (body : list step)
  : option (string * list event) :=
  match body with
  | [] => None
  | Do code :: rest =>
      match missing_in exported code with
      | Some sym => Some (sym, [])
      | None => first_failure exported rest
      end
  | Define fmtstr :: rest =>
      match failing_instance exported fmtstr type_mappings with
      | Some failure => Some failure
      | None => first_failure exported rest
      end
  end.

(** The first of them a library does not export. *)
Definition first_missing (exported : string -> bool) : option string :=
  List.find (fun sym => negb (exported sym)) required_symbols.

(** The element types of the arrays a function reads. *)
Definition input_dtypes (tys : list argtype) : list dtype :=
  omap (fun ty =>
          match ty with
          | ndpointer dt _ "aligned, c_contiguous" => Some dt
          | _ => None
          end) tys.

#[export] Instance argtype_eq_dec : EqDecision argtype.
Proof. solve_decision. Defined.

(** The symbol of the function of a family for an element type. *)
Definition symbol (family : string) (C : string) : string :=
  "flann_" +:+ family +:+ "_" +:+ C.

(** The families whose functions make an index, and those whose functions
    work on one. *)
Definition index_makers : list string := [ "build_index"; "load_index" ].

Definition index_users : list string :=
  [ "used_memory"; "add_points"; "remove_point"; "save_index";
    "find_nearest_neighbors_index"; "radius_search"; "free_index" ].

(** The families whose functions are handed a dataset or a query. *)
Definition data_families : list string :=
  [ "build_index"; "add_points"; "load_index"; "find_nearest_neighbors";
    "find_nearest_neighbors_index"; "radius_search"; "compute_cluster_centers" ].

(** The C name [type_mappings] pairs with an element type. *)
Definition C_name (numpy : dtype) : string :=
  match numpy with
  | float32 => "float"
  | float64 => "double"
  | uint8 => "byte"
  | int32 => "int"
  end.

End Derived.

(** ** Inputs the properties below are tried on *)

Module Examples.
Import Py CustomStructure FLANNParameters Loader Binding Arrays Registry.
Local Open Scope string_scope.
Local Open Scope list_scope.

(** The memory of a [FLANNParameters] before the defaults are assigned,
    every field zero, and the structure that has it. *)
Definition zeros : gmap string pyval := attrs (Structure_init FLANNParameters).

Definition blank_params : CustomStructure.t := instance zeros.

(** A machine where a file of the right name exists and is no library. *)
Definition broken_machine : env :=
  {| sys_argv := [];
     sys_platform := "darwin";
     sys_version := "3.8.10 (default, Nov 22 2023)";
     has_gettotalrefcount := false;
     get_platform := None;
     module_dir := ["opt"; "pyflann"];
     path_exists := fun _ => true;
     cdll := fun _ => None |}.

(** A Linux machine on which no library file exists. *)
Definition bare_machine : env :=
  {| sys_argv := ["script.py"; "--verbose"];
     sys_platform := "linux";
     sys_version := "3.8.10 (default, Nov 22 2023)";
     has_gettotalrefcount := false;
     get_platform := Some "linux-x86_64";
     module_dir := ["usr"; "lib"; "python3"; "pyflann"];
     path_exists := fun _ => false;
     cdll := fun _ => None |}.

(** A library that exports every symbol, installed next to the module. *)
Definition libflann : CDLL :=
  {| _name := Abs ["usr"; "lib"; "python3"; "pyflann"; "lib"; "libflann.so"];
     exports := everything;
     repr := "<CDLL 'libflann.so'>" |}.

Definition path_eqb (p q : path) : bool :=
  match p, q with
  | Abs a, Abs b | Rel a, Rel b => bool_decide (a = b)
  | _, _ => false
  end.

Definition installed_machine : env :=
  {| sys_argv := ["script.py"];
     sys_platform := "linux";
     sys_version := "3.8.10 (default, Nov 22 2023)";
     has_gettotalrefcount := false;
     get_platform := None;
     module_dir := ["usr"; "lib"; "python3"; "pyflann"];
     path_exists := fun p => path_eqb p (_name libflann);
     cdll := fun p => if path_eqb p (_name libflann) then Some libflann else None |}.

Definition installed_module : module :=
  {| flannlib := Some libflann; registered := all_bindings |}.

(** A [require] that has nothing to convert. *)
Definition plain_require (arr : ndarray Z) (_ : list string) (_ : unit)
  : result (ndarray Z) := Ok arr.

Definition vector3 : ndarray Z := {| shape := [3%nat]; data := [10; 20; 30] |}.

Definition empty_vector : ndarray Z := {| shape := [0%nat]; data := [] |}.

(** A 2 x 2 x 2 array. *)
Definition cube : ndarray Z :=
  {| shape := [2%nat; 2%nat; 2%nat]; data := [1; 2; 3; 4; 5; 6; 7; 8] |}.

(** An engine that keeps the points and answers nothing. *)
Definition point_store : engine :=
  {| index := list (list Z);
     dataset := list (list Z);
     query := list Z;
     answer := option nat;
     build_index := fun d => d;
     find_nearest_neighbors_index := fun _ _ => None;
     add_points := fun i d => i ++ d;
     remove_point := fun i id => take id i ++ drop (S id) i;
     used_memory := fun i => length i |}.

(** One index built, then freed; what the process does afterwards. *)
Definition built : registry point_store :=
  snd (step empty_registry (BuildIndex (E := point_store) [[1; 2]; [3; 4]])).

Definition freed : registry point_store := snd (step built (FreeIndex 0)).

Definition later_calls : list (call point_store) :=
  [ BuildIndex (E := point_store) [[5; 6]]; SaveIndex 1 "index.flann" ].

(** A Windows machine where only the loader's own search finds the
    library, under its second name. *)
Definition system_machine : env :=
  {| sys_argv := [];
     sys_platform := "win32";
     sys_version := "3.8.10 (default, Nov 22 2023)";
     has_gettotalrefcount := false;
     get_platform := None;
     module_dir := ["pyflann"];
     path_exists := fun _ => false;
     cdll := fun p => if path_eqb p (Rel ["libflann.dll"]) then Some libflann else None |}.

(** An older library, without the functions that add points, installed
    in the same place. *)
Definition old_libflann : CDLL :=
  {| _name := _name libflann;
     exports := fun sym => negb (String.prefix "flann_add_points_" sym);
     repr := "<CDLL 'libflann.so'>" |}.

Definition old_machine : env :=
  {| sys_argv := [];
     sys_platform := "linux";
     sys_version := "3.8.10 (default, Nov 22 2023)";
     has_gettotalrefcount := false;
     get_platform := None;
     module_dir := ["usr"; "lib"; "python3"; "pyflann"];
     path_exists := fun p => path_eqb p (_name libflann);
     cdll := fun p => if path_eqb p (_name libflann) then Some old_libflann else None |}.

(** A class one of whose defaults is for a field it does not declare. *)
Definition misdeclared : class :=
  {| _fields_ := [ ("rows", Ctypes.c_int) ];
     _defaults_ := [ ("rows", PInt 1); ("cols", PInt 2) ];
     _translation_ := [] |}.

(** A dict whose second key is no field of [FLANNParameters]. *)
Definition two_items : list (string * pyval) := [ ("trees", PInt 8); ("nope", PInt 1) ].

End Examples.

(** * Properties *)

(** ** The configuration structure *)

Module ParametersSpec.
Import Py Ctypes CustomStructure FLANNParameters.
Local Open Scope string_scope.
Local Open Scope list_scope.

Lemma str_in_elem_of (k : string) (names : list string) :
  str_in k names = true <-> k ∈ names.
Proof.
  unfold str_in. rewrite existsb_exists. split.
  - intros (x & Hin & Heq). apply String.eqb_eq in Heq. subst x.
    by apply list_elem_of_In.
  - intros Hin. exists k. split; [by apply list_elem_of_In | apply String.eqb_refl].
Qed.

Lemma str_in_not_elem_of (k : string) (names : list string) :
  k ∉ names -> str_in k names = false.
Proof.
  intros Hk. destruct (str_in k names) eqn:E; [|done].
  by apply str_in_elem_of in E.
Qed.

Lemma setattr_field_names (self self' : t) k v r :
  setattr self k v = (r, self') -> __field_names self' = __field_names self.
Proof.
  unfold setattr. destruct (str_get _ k) as [ty|].
  - destruct (c_set ty v); intros [= _ <-]; done.
  - intros [= _ <-]; done.
Qed.

Lemma update_field_names (dict : list (string * pyval)) :
  forall (self self' : t) r,
    update self dict = (r, self') -> __field_names self' = __field_names self.
Proof.
  induction dict as [|[k v] rest IH]; intros self self' r; simpl.
  - by intros [= _ <-].
  - destruct (str_in k (__field_names self)).
    + destruct (setattr self k (__translate self k v)) as [[[]|e] s1] eqn:E.
      * intros H. rewrite (IH _ _ _ H). eapply setattr_field_names, E.
      * intros [= _ <-]. eapply setattr_field_names, E.
    + by intros [= _ <-].
Qed.

Lemma update_app (before after : list (string * pyval)) :
  forall (self self' : t),
    update self before = (Ok tt, self') ->
    update self (before ++ after) = update self' after.
Proof.
  induction before as [|[k v] rest IH]; intros self self'; simpl.
  - by intros [= <-].
  - destruct (str_in k (__field_names self)); [|done].
    destruct (setattr self k (__translate self k v)) as [[[]|e] s1]; [|done].
    apply IH.
Qed.

Lemma update_unknown_raises (dict : list (string * pyval)) :
  forall (self : t) k,
    k ∉ __field_names self -> k ∈ dict.*1 ->
    exists e self', update self dict = (Raise e, self').
Proof.
  induction dict as [|[k' v] rest IH]; intros self k Hk Hin; simpl in *.
  - by apply elem_of_nil in Hin.
  - destruct (str_in k' (__field_names self)) eqn:Hk'; [|eauto].
    destruct (setattr self k' (__translate self k' v)) as [[[]|e] s1] eqn:E; [|eauto].
    apply (IH s1 k).
    + by rewrite (setattr_field_names _ _ _ _ _ E).
    + apply elem_of_cons in Hin as [->|Hin]; [|done].
      apply str_in_elem_of in Hk'. done.
Qed.

(** C1 (as amended): the structure has 21 fields, in the order given. *)
Theorem FLANNParameters_fields_in_order :
  length (_fields_ FLANNParameters) = 21%nat /\
  (_fields_ FLANNParameters).*1 =
    [ "algorithm"; "checks"; "eps"; "sorted"; "max_neighbors"; "cores"; "trees";
      "leaf_max_size"; "branching"; "iterations"; "centers_init"; "cb_index";
      "target_precision"; "build_weight"; "memory_weight"; "sample_fraction";
      "table_number_"; "key_size_"; "multi_probe_level_"; "log_level";
      "random_seed" ].
Proof. split; reflexivity. Qed.

(** C1 as stated fails: the names listed are those of the fields, but they
    are 21, not 20. *)
Lemma FLANNParameters_not_20_fields :
  ~ (length (_fields_ FLANNParameters) = 20%nat /\
     (_fields_ FLANNParameters).*1 =
       [ "algorithm"; "checks"; "eps"; "sorted"; "max_neighbors"; "cores"; "trees";
         "leaf_max_size"; "branching"; "iterations"; "centers_init"; "cb_index";
         "target_precision"; "build_weight"; "memory_weight"; "sample_fraction";
         "table_number_"; "key_size_"; "multi_probe_level_"; "log_level";
         "random_seed" ]).
Proof. intros [H _]. vm_compute in H. discriminate H. Qed.

(** Where a raising [update] stops: at the first item that cannot be
    assigned, after the items before it have been. *)
Lemma update_raises_at (dict : list (string * pyval)) :
  forall (self self' : t) e,
    update self dict = (Raise e, self') ->
    exists before k' v' after s1,
      dict = before ++ (k', v') :: after /\
      update self before = (Ok tt, s1) /\
      (((k' ∉ __field_names self) /\ e = KeyError ("No such member: " +:+ k') /\
        self' = s1) \/
       ((k' ∈ __field_names self) /\
        setattr s1 k' (__translate s1 k' v') = (Raise e, self'))).
Proof.
  induction dict as [|[k v] rest IH]; intros self self' e; simpl; [done|].
  destruct (str_in k (__field_names self)) eqn:Hk.
  - destruct (setattr self k (__translate self k v)) as [[[]|e1] s1] eqn:E.
    + intros (before & k' & v' & after & s2 & -> & Hbefore & Hcase)%IH.
      exists ((k, v) :: before), k', v', after, s2. split; [done|]. split.
      * simpl. by rewrite Hk, E.
      * by rewrite (setattr_field_names _ _ _ _ _ E) in Hcase.
    + intros [= <- <-]. exists [], k, v, rest, self. split; [done|]. split; [done|].
      right. split; [by apply str_in_elem_of|done].
  - intros [= <- <-]. exists [], k, v, rest, self. split; [done|]. split; [done|].
    left. split; [|done]. intros Hin%str_in_elem_of. congruence.
Qed.

(** C2 (as amended): a key that is no field name makes [__setitem__]
    raise [KeyError]; [update] with a dict containing it never returns
    normally: it raises that [KeyError] when the items before the key have
    been assigned, and otherwise stops earlier, at the first item that
    cannot be assigned, with the [KeyError] of that item's key or the
    error of its field. *)
Theorem unknown_key_raises (self : t) (k : string) :
  k ∉ __field_names self ->
  (forall v, __setitem__ self k v = (Raise (KeyError ("No such member: " +:+ k)), self)) /\
  (forall dict, k ∈ dict.*1 ->
     exists e self',
       update self dict = (Raise e, self') /\
       exists before k' v' after s1,
         dict = before ++ (k', v') :: after /\
         update self before = (Ok tt, s1) /\
         (((k' ∉ __field_names self) /\ e = KeyError ("No such member: " +:+ k') /\
           self' = s1) \/
          ((k' ∈ __field_names self) /\
           setattr s1 k' (__translate s1 k' v') = (Raise e, self')))) /\
  (forall before v after self',
     update self before = (Ok tt, self') ->
     update self (before ++ (k, v) :: after)
     = (Raise (KeyError ("No such member: " +:+ k)), self')).
Proof.
  intros Hk. split; [|split].
  - intros v. unfold __setitem__. by rewrite (str_in_not_elem_of _ _ Hk).
  - intros dict Hin.
    destruct (update_unknown_raises dict self k Hk Hin) as (e & self' & Hupdate).
    exists e, self'. split; [done|]. by apply update_raises_at.
  - intros before v after self' Hbefore.
    rewrite (update_app _ _ _ _ Hbefore). simpl.
    rewrite (update_field_names _ _ _ _ Hbefore).
    by rewrite (str_in_not_elem_of _ _ Hk).
Qed.

(** C9: reading a key that is no field name returns [None], where
    assigning to it raises [KeyError]. *)
Theorem getitem_unknown_key_is_None (self : t) (k : string) :
  k ∉ __field_names self ->
  __getitem__ self k = Ok PNone /\
  (forall v, __setitem__ self k v = (Raise (KeyError ("No such member: " +:+ k)), self)).
Proof.
  intros Hk. unfold __getitem__, __setitem__.
  by rewrite (str_in_not_elem_of _ _ Hk).
Qed.

(** The keys of the three tables are strings and the codes integers that
    fit a [c_int]. *)
Lemma translation_tables (f : string) (table : list (pyval * pyval)) :
  (f, table) ∈ translation ->
  f ∈ ["algorithm"; "centers_init"; "log_level"] /\
  str_get fields f = Some c_int /\
  str_get translation f = Some table /\
  str_in f (fields.*1) = true /\
  Forall (fun item => exists name code,
            item = (PStr name, PInt code) /\ wrap_signed 32 code = code) table.
Proof.
  intros H. unfold translation in H.
  repeat (apply elem_of_cons in H as [H|H]; [injection H as -> ->|]).
  all: unfold algorithm_table, centers_init_table, log_level_table.
  4: by apply elem_of_nil in H.
  all: split; [set_solver|].
  all: repeat split; try reflexivity.
  all: repeat (apply Forall_cons; split; [eexists _, _; split; reflexivity|]).
  all: by apply Forall_nil.
Qed.

Lemma dict_get_str_int (table : list (pyval * pyval)) (v : pyval) :
  Forall (fun item => exists name code,
            item = (PStr name, PInt code) /\ wrap_signed 32 code = code) table ->
  (forall s, v <> PStr s) -> dict_get table v = None.
Proof.
  intros Htable Hv. unfold dict_get.
  induction Htable as [|item rest (name & code & -> & _) _ IH]; [done|].
  simpl. destruct v; try done. by destruct (Hv s).
Qed.

Lemma setitem_translated (a : gmap string pyval) f table v :
  (f, table) ∈ translation ->
  __setitem__ (instance a) f v =
    match c_set c_int (default v (dict_get table v)) with
    | Ok c => (Ok tt, instance (<[f := c]> a))
    | Raise e => (Raise e, instance a)
    end.
Proof.
  intros (_ & Hty & Htable & Hin & _)%translation_tables.
  unfold __setitem__, __translate, setattr, with_attrs, instance.
  cbn [klass __field_names attrs _fields_ _translation_ FLANNParameters].
  change (List.map fst fields) with (fields.*1).
  rewrite Hin, Htable, Hty.
  by destruct (dict_get table v).
Qed.

Lemma wrap_signed_fits (z : Z) :
  - 2 ^ 31 <= z < 2 ^ 31 -> wrap_signed 32 z = z.
Proof.
  intros Hz. unfold wrap_signed.
  change (2 ^ (32 - 1)) with (2 ^ 31). rewrite Z.mod_small; lia.
Qed.

(** C3 (as amended): on a translated field, a value that is neither a key
    of the field's table nor an integer (a string that is no key, [None],
    a float) is rejected, with the [TypeError] of the field assignment and
    the structure unchanged. An integer, a bool included, is never a key
    and is not checked against the codes: the assignment succeeds and the
    field holds the integer reduced to 32 bits, signed, which is the
    integer itself when it fits. *)
Theorem invalid_enum_value_outcome (a : gmap string pyval) f table :
  (f, table) ∈ _translation_ FLANNParameters ->
  (forall v, dict_get table v = None ->
     (forall z, v <> PInt z) -> (forall b, v <> PBool b) ->
     __setitem__ (instance a) f v = (Raise TypeError, instance a)) /\
  (forall z,
     dict_get table (PInt z) = None /\
     __setitem__ (instance a) f (PInt z)
     = (Ok tt, instance (<[f := PInt (wrap_signed 32 z)]> a)) /\
     (- 2 ^ 31 <= z < 2 ^ 31 -> wrap_signed 32 z = z)) /\
  (forall b,
     dict_get table (PBool b) = None /\
     __setitem__ (instance a) f (PBool b)
     = (Ok tt, instance (<[f := PInt (Z.b2z b)]> a))).
Proof.
  intros Hf.
  pose proof (translation_tables _ _ Hf) as (_ & _ & _ & _ & Htable).
  split; [|split].
  - intros v Hv Hint Hbool. rewrite (setitem_translated _ _ _ _ Hf), Hv.
    destruct v; try done; [by destruct (Hbool b)|by destruct (Hint z)].
  - intros z.
    assert (dict_get table (PInt z) = None) as Hz by (by apply dict_get_str_int).
    split; [done|]. split; [|apply wrap_signed_fits].
    by rewrite (setitem_translated _ _ _ _ Hf), Hz.
  - intros b.
    assert (dict_get table (PBool b) = None) as Hb by (by apply dict_get_str_int).
    split; [done|]. rewrite (setitem_translated _ _ _ _ Hf), Hb. by destruct b.
Qed.

(** C3 as stated fails: 7 is no key of the table of [algorithm] (nor one
    of its codes), and assigning it succeeds. *)
Lemma invalid_enum_integer_accepted :
  dict_get algorithm_table (PInt 7) = None /\
  match __init__ FLANNParameters with
  | Ok self =>
      fst (__setitem__ self "algorithm" (PInt 7)) = Ok tt /\
      getattr (snd (__setitem__ self "algorithm" (PInt 7))) "algorithm" = Ok (PInt 7)
  | Raise _ => False
  end.
Proof. split; [reflexivity|]. vm_compute. split; reflexivity. Qed.


Lemma getitem_translated (a : gmap string pyval) f table v :
  (f, table) ∈ translation ->
  __getitem__ (instance (<[f := v]> a)) f =
    Ok match List.find (fun item => py_eq (snd item) v) table with
       | Some (tk, _) => tk
       | None => v
       end.
Proof.
  intros (_ & _ & Htable & Hin & _)%translation_tables.
  unfold __getitem__, __translate_back, getattr, instance.
  cbn [klass __field_names attrs _fields_ _translation_ FLANNParameters].
  change (List.map fst fields) with (fields.*1).
  rewrite Hin, Htable, lookup_insert_eq. done.
Qed.

(** C7: the translated fields are [algorithm], [centers_init] and
    [log_level]; assigning a name of a field's table stores its code, and
    reading the field gives a name of the table with the same code. *)
Theorem translation_round_trip :
  (_translation_ FLANNParameters).*1 = ["algorithm"; "centers_init"; "log_level"] /\
  forall (a : gmap string pyval) f table name code,
    (f, table) ∈ _translation_ FLANNParameters ->
    (PStr name, PInt code) ∈ table ->
    let self' := instance (<[f := PInt code]> a) in
    __setitem__ (instance a) f (PStr name) = (Ok tt, self') /\
    getattr self' f = Ok (PInt code) /\
    exists name',
      __getitem__ self' f = Ok (PStr name') /\ (PStr name', PInt code) ∈ table.
Proof.
  split; [reflexivity|].
  intros a f table name code Hf Hname self'. subst self'.
  rewrite (setitem_translated _ _ _ _ Hf), (getitem_translated _ _ _ _ Hf).
  unfold getattr, instance. cbn [attrs]. rewrite lookup_insert_eq.
  cbn [_translation_ FLANNParameters] in Hf. unfold translation in Hf.
  repeat (apply elem_of_cons in Hf as [Hf|Hf]; [injection Hf as -> ->|]).
  4: by apply elem_of_nil in Hf.
  all: unfold algorithm_table, centers_init_table, log_level_table in *.
  all: repeat (apply elem_of_cons in Hname as [Hname|Hname]; [injection Hname as -> ->|]).
  all: try by apply elem_of_nil in Hname.
  all: split; [reflexivity|split; [reflexivity|]].
  all: eexists; split; [reflexivity|repeat first [by left | right]].
Qed.


Lemma unknown_key_raises_witness :
("bogus" ∉ __field_names Examples.blank_params) /\
  __setitem__ Examples.blank_params "bogus" (PInt 1)
  = (Raise (KeyError "No such member: bogus"), Examples.blank_params).
Proof.
  assert ("bogus" ∉ __field_names Examples.blank_params) as Hk.
  { apply (bool_decide_eq_false_1 _). reflexivity. }
  split; [exact Hk|].
  exact (proj1 (unknown_key_raises Examples.blank_params "bogus" Hk) (PInt 1)).
Defined.

Lemma getitem_unknown_key_is_None_witness :
("bogus" ∉ __field_names Examples.blank_params) /\
  __getitem__ Examples.blank_params "bogus" = Ok PNone.
Proof.
  assert ("bogus" ∉ __field_names Examples.blank_params) as Hk.
  { apply (bool_decide_eq_false_1 _). reflexivity. }
  split; [exact Hk|].
  exact (proj1 (getitem_unknown_key_is_None Examples.blank_params "bogus" Hk)).
Defined.

Lemma invalid_enum_value_outcome_witness :
  __setitem__ Examples.blank_params "log_level" (PStr "loud")
  = (Raise TypeError, Examples.blank_params).
Proof.
  refine (proj1 (invalid_enum_value_outcome Examples.zeros "log_level" log_level_table _)
                (PStr "loud") _ _ _).
  - right; right; left.
  - reflexivity.
  - discriminate.
  - discriminate.
Defined.

Lemma translation_round_trip_witness :
  __setitem__ Examples.blank_params "algorithm" (PStr "default")
  = (Ok tt, instance (<["algorithm" := PInt 1]> Examples.zeros)) /\
  __getitem__ (instance (<["algorithm" := PInt 1]> Examples.zeros)) "algorithm"
  = Ok (PStr "kdtree").
Proof.
  destruct (proj2 translation_round_trip Examples.zeros "algorithm" algorithm_table
              "default" 1)
    as (Hset & _ & name' & Hget & _).
  - left.
  - do 9 right. left.
  - split; [exact Hset|reflexivity].
Defined.

(** What [__init__] leaves is a structure with the field names of its
    class. *)
Lemma init_field_names (cls : class) (self : t) :
  __init__ cls = Ok self -> __field_names self = (_fields_ cls).*1.
Proof.
  unfold __init__.
  destruct (update _ (_defaults_ cls)) as [[[]|e] self'] eqn:E; [|done].
  intros [= <-]. by rewrite (update_field_names _ _ _ _ E).
Qed.

(** C2 as stated fails for [update]: with a value that the field of an
    earlier key rejects, the dict that contains the unknown key makes
    [update] raise [TypeError], not [KeyError]. *)
Lemma update_with_unknown_key_raises_TypeError :
  match __init__ FLANNParameters with
  | Ok self =>
      ("nope" ∉ __field_names self) /\
      "nope" ∈ [ ("algorithm", PStr "bogus"); ("nope", PInt 1) ].*1 /\
      fst (update self [ ("algorithm", PStr "bogus"); ("nope", PInt 1) ]) = Raise TypeError
  | Raise _ => False
  end.
Proof.
  assert (match __init__ FLANNParameters with
          | Ok self =>
              match fst (update self [ ("algorithm", PStr "bogus"); ("nope", PInt 1) ]) with
              | Raise TypeError => true
              | _ => false
              end
          | Raise _ => false
          end = true) as Hrun by (vm_compute; reflexivity).
  destruct (__init__ FLANNParameters) as [self|e] eqn:E; [|done].
  split; [|split].
  - rewrite (init_field_names _ _ E). apply (bool_decide_eq_false_1 _). reflexivity.
  - right. left.
  - by destruct (fst (update self _)) as [|[]].
Qed.

(** A fresh [FLANNParameters] reads back its defaults, the floats as the
    single-precision numbers the fields hold. *)
Example default_parameters :
  (self ← __init__ FLANNParameters;
   algorithm ← __getitem__ self "algorithm";
   log_level ← __getitem__ self "log_level";
   random_seed ← __getitem__ self "random_seed";
   target_precision ← __getitem__ self "target_precision";
   Ok [algorithm; log_level; random_seed; target_precision])
  = Ok [ PStr "kdtree"; PStr "warning"; PInt (-1);
         PFloat (S754_finite false 8106479114518528 (-53)) ].
Proof. vm_compute. reflexivity. Qed.

(** [update] stops at the first item it cannot assign: here the value of
    [algorithm] is rejected before the unknown key is reached, and
    [checks] keeps the value it was given. *)
Example update_stops_at_first_error :
  let (r, self) := update Examples.blank_params
                     [ ("checks", PInt 64); ("algorithm", PStr "bogus"); ("nope", PInt 1) ] in
  r = Raise TypeError /\ getattr self "checks" = Ok (PInt 64).
Proof. vm_compute. split; reflexivity. Qed.

(** Integer fields keep the low bits of what they are given. *)
Example integer_fields_wrap :
  c_set c_int (PInt (2 ^ 31)) = Ok (PInt (- 2 ^ 31)) /\
  c_set c_uint (PInt (-1)) = Ok (PInt (2 ^ 32 - 1)) /\
  c_set c_int (PBool true) = Ok (PInt 1) /\
  c_set c_int (PFloat (float_literal 1 1)) = Raise TypeError.
Proof. repeat split; reflexivity. Qed.

End ParametersSpec.

(** ** The library and the entry points *)

Module BindingSpec.
Import Py Loader Binding CustomStructure FLANNParameters.
Local Open Scope string_scope.
Local Open Scope list_scope.

Lemma say_only_prints (e : env) (line : string) : only_prints (say e line).
Proof. unfold say. destruct (verbose e); repeat constructor. Qed.

Lemma try_libpaths_absent (e : env) (paths : list path) :
  (forall p, p ∈ paths -> cdll e p = None /\ path_exists e p = false) ->
  exists printed, try_libpaths e paths = (Ok None, printed) /\ only_prints printed.
Proof.
  induction paths as [|p rest IH]; intros Habsent; simpl.
  - exists []. split; [done|constructor].
  - destruct (Habsent p) as [-> ->]; [left|].
    destruct IH as (printed & -> & Hw).
    { intros q Hq. apply Habsent. by right. }
    eexists. split; [done|].
    repeat (apply Forall_app; split); first [apply say_only_prints | assumption].
Qed.

Lemma try_fallback_absent (e : env) (names : list string) :
  (forall name, name ∈ names -> cdll e (Rel [name]) = None) ->
  exists printed, try_fallback e names = (None, printed) /\ only_prints printed.
Proof.
  induction names as [|n rest IH]; intros Habsent; simpl.
  - exists []. split; [done|constructor].
  - rewrite (Habsent n); [|left].
    destruct IH as (printed & -> & Hw).
    { intros q Hq. apply Habsent. by right. }
    eexists. split; [done|].
    repeat (apply Forall_app; split); first [apply say_only_prints | assumption].
Qed.

(** C4: when no candidate path exists or loads and the bare library names
    do not load either, [load_flann_library] returns [None] after one
    warning, and raises nothing; importing the module then succeeds with
    no library and no entry point, and the configuration structure can
    still be made. *)
Theorem missing_library_warns (e : env) :
  (forall p, p ∈ gen_possible_libpaths e -> cdll e p = None /\ path_exists e p = false) ->
  (forall name, name ∈ possible_libnames e -> cdll e (Rel [name]) = None) ->
  exists printed,
    let out := printed ++ [Warning "Unable to load C library for FLANN"] in
    only_prints printed /\
    load_flann_library e = (Ok None, out) /\
    import_module e = (Ok {| flannlib := None; registered := no_bindings |}, out) /\
    exists params, __init__ FLANNParameters = Ok params.
Proof.
  intros Hpaths Hnames.
  destruct (try_libpaths_absent e _ Hpaths) as (out1 & H1 & Hw1).
  destruct (try_fallback_absent e _ Hnames) as (out2 & H2 & Hw2).
  exists (say e "[flann] Loading FLANN shared library" ++ out1 ++ out2).
  assert (load_flann_library e =
          (Ok None, (say e "[flann] Loading FLANN shared library" ++ out1 ++ out2)
                    ++ [Warning "Unable to load C library for FLANN"])) as Hload.
  { unfold load_flann_library. rewrite H1, H2. by rewrite <- !app_assoc. }
  split; [|split; [done|split]].
  - repeat (apply Forall_app; split); first [apply say_only_prints | assumption].
  - unfold import_module. by rewrite Hload.
  - assert (match __init__ FLANNParameters with
            | Ok _ => true
            | Raise _ => false
            end = true) as Hok by (vm_compute; reflexivity).
    destruct (__init__ FLANNParameters) as [params|x]; [by exists params|done].
Qed.

Lemma missing_library_warns_witness :
  (forall p, cdll Examples.bare_machine p = None) /\
  exists printed,
    load_flann_library Examples.bare_machine
    = (Ok None, printed ++ [Warning "Unable to load C library for FLANN"]) /\
    import_module Examples.bare_machine
    = (Ok {| flannlib := None; registered := no_bindings |},
       printed ++ [Warning "Unable to load C library for FLANN"]).
Proof.
  split; [reflexivity|].
  destruct (missing_library_warns Examples.bare_machine) as (printed & _ & H1 & H2 & _).
  - intros p _. split; reflexivity.
  - intros name _. reflexivity.
  - exists printed. split; [exact H1|exact H2].
Defined.


(** A run that succeeds does so whatever else the library exports: it
    gives what the run on a library exporting every symbol gives. *)
Lemma exec_exported exported (m m' : bindings) (s : stmt) :
  exec exported m s = Ok m' -> exec everything m s = Ok m'.
Proof.
  destruct s; simpl; try done; by destruct (exported sym).
Qed.

Lemma exec_all_exported exported (code : list stmt) :
  forall m m' : bindings,
    exec_all exported m code = Ok m' -> exec_all everything m code = Ok m'.
Proof.
  induction code as [|s code IH]; intros m m'; simpl; [done|].
  destruct (exec exported m s) as [m1|x] eqn:E; [|done].
  rewrite (exec_exported _ _ _ _ E). apply IH.
Qed.

Lemma define_each_exported exported (fmtstr : template) (mappings : list (string * dtype)) :
  forall m m' : bindings,
    fst (define_each exported fmtstr m mappings) = Ok m' ->
    define_each everything fmtstr m mappings = (Ok m', []).
Proof.
  induction mappings as [|ty tys IH]; intros m m'; simpl.
  - by intros ->.
  - destruct (exec_all exported m (fmtstr ty.1 ty.2)) as [m1|x] eqn:E.
    + rewrite (exec_all_exported _ _ _ _ E). apply IH.
    + by destruct x.
Qed.

Lemma run_exported exported (body : list step) :
  forall m m' : bindings,
    fst (run exported m body) = Ok m' -> run everything m body = (Ok m', []).
Proof.
  induction body as [|s body IH]; intros m m'; simpl; [by intros ->|].
  destruct (run_step exported m s) as [[m1|x] out] eqn:E; [|done].
  destruct (run exported m1 body) as [r out'] eqn:E'. simpl. intros ->.
  assert (run_step everything m s = (Ok m1, [])) as ->.
  { destruct s; simpl in *.
    - injection E as E _. by rewrite (exec_all_exported _ _ _ _ E).
    - apply (define_each_exported exported). unfold define_functions in E.
      by rewrite E. }
  rewrite (IH m1 m'); [done|by rewrite E'].
Qed.

Lemma run_everything : run everything no_bindings module_body = (Ok all_bindings, []).
Proof.
  assert (match fst (run everything no_bindings module_body) with
          | Ok _ => true
          | Raise _ => false
          end = true) as Hok by (vm_compute; reflexivity).
  unfold all_bindings.
  destruct (fst (run everything no_bindings module_body)) as [m|x] eqn:E; [|done].
  by apply run_exported in E.
Qed.

(** What a successful import with a library leaves. *)
Lemma import_module_registered (e : env) (m : module) (out : list event) :
  import_module e = (Ok m, out) ->
  is_Some (flannlib m) ->
  registered m = all_bindings.
Proof.
  unfold import_module.
  destruct (load_flann_library e) as [[[lib|]|x] out']; try done.
  - generalize run_everything. generalize module_body as body. intros body Hall.
    destruct (run (exports lib) no_bindings body) as [[m1|x] printed] eqn:H; [|done].
    simpl. intros [= <- <-] _.
    assert (fst (run (exports lib) no_bindings body) = Ok m1) as H' by (by rewrite H).
    apply run_exported in H'. simpl. congruence.
  - intros [= <- <-] []. done.
Qed.

(** C5: after an import that found the library, [flann] has exactly the
    eleven dispatch dicts, and the keys of each are exactly the four
    element types, each bound to a function of the library whose argument
    types are declared. *)
Theorem dispatch_tables_cover_all_types (e : env) (m : module) (out : list event) :
  import_module e = (Ok m, out) ->
  is_Some (flannlib m) ->
  dom (flann (registered m)) = list_to_set families /\
  forall family, family ∈ families ->
    exists d, flann (registered m) !! family = Some d /\
      d.*1 = [float32; float64; uint8; int32] /\
      Forall (fun item => is_typed (functions (registered m) !! snd item)) d.
Proof.
  intros Himport Hlib.
  rewrite (import_module_registered e m out Himport Hlib). split.
  - apply (bool_decide_eq_true_1 _). vm_compute. reflexivity.
  - assert (forallb (complete_dict all_bindings) families = true) as Hall
      by (vm_compute; reflexivity).
    intros family Hin%list_elem_of_In.
    rewrite forallb_forall in Hall. specialize (Hall family Hin).
    unfold complete_dict in Hall.
    destruct (flann all_bindings !! family) as [d|]; [|done].
    apply andb_true_iff in Hall as [Hkeys Hvalues].
    exists d. split; [done|]. split.
    + by apply bool_decide_eq_true_1 in Hkeys.
    + apply Forall_forall. intros item Hitem%list_elem_of_In.
      rewrite forallb_forall in Hvalues. specialize (Hvalues item Hitem).
      by apply bool_decide_eq_true_1 in Hvalues.
Qed.


(** C6: for each of the four search functions, the instance of the
    template for [double] declares a [float32] output; statements of
    their own, placed right after the template in the module body, declare
    the [float64] output instead, and that is what the function bound to
    [float64] ends with. The functions of the other element types keep
    the [float32] output of the template. *)
Theorem double_search_registered_separately (e : env) (m : module) (out : list event) :
  import_module e = (Ok m, out) ->
  is_Some (flannlib m) ->
  forall F, F ∈ search_families ->
    let double := prefix F +:+ "double" in
    set_argtypes double (signature F float64 float32) ∈ code F "double" float64 /\
    float_outputs (signature F float64 float32) = [float32] /\
    (exists before after,
       module_body = before ++ [Define (code F); Do (double_code F)] ++ after) /\
    double_code F =
      [ set_restype double (Some c_int);
        set_argtypes double (signature F float64 float64);
        set_item (attr F) float64 double ] /\
    float_outputs (signature F float64 float64) = [float64] /\
    (exists d, flann (registered m) !! attr F = Some d /\ (float64, double) ∈ d) /\
    functions (registered m) !! double = Some (typed (signature F float64 float64)) /\
    forall C numpy, (C, numpy) ∈ type_mappings -> numpy <> float64 ->
      functions (registered m) !! (prefix F +:+ C)
      = Some (typed (signature F numpy float32)) /\
      float_outputs (signature F numpy float32) = [float32].
Proof.
  intros Himport Hlib F HF.
  rewrite (import_module_registered e m out Himport Hlib).
  unfold search_families in HF.
  repeat (apply elem_of_cons in HF as [->|HF]); [| | | |by apply elem_of_nil in HF].
  all: cbn [attr prefix code double_code signature]; cbv zeta.
  all: split; [right; left|].
  all: split; [reflexivity|].
  all: split;
    [first [ by exists (firstn 14 module_body), (skipn 16 module_body)
           | by exists (firstn 17 module_body), (skipn 19 module_body)
           | by exists (firstn 20 module_body), (skipn 22 module_body)
           | by exists (firstn 23 module_body), (skipn 25 module_body) ]|].
  all: split; [reflexivity|].
  all: split; [reflexivity|].
  all: split; [eexists; split; [vm_compute; reflexivity|right; left]|].
  all: split; [vm_compute; reflexivity|].
  all: intros C numpy HC Hnumpy; unfold type_mappings in HC.
  all: repeat (apply elem_of_cons in HC as [[= -> ->]|HC]);
    [| | | |by apply elem_of_nil in HC]; try done.
  all: split; [vm_compute; reflexivity|reflexivity].
Qed.

Lemma import_installed_module :
  import_module Examples.installed_machine = (Ok Examples.installed_module, []).
Proof.
  unfold import_module.
  assert (load_flann_library Examples.installed_machine = (Ok (Some Examples.libflann), []))
    as -> by (vm_compute; reflexivity).
  change (exports Examples.libflann) with everything.
  by rewrite run_everything.
Qed.

Lemma dispatch_tables_cover_all_types_witness :
  import_module Examples.installed_machine = (Ok Examples.installed_module, []) /\
  exists d, flann all_bindings !! "radius_search" = Some d /\
            d.*1 = [float32; float64; uint8; int32].
Proof.
  split; [exact import_installed_module|].
  destruct (proj2 (dispatch_tables_cover_all_types _ _ _ import_installed_module
                     (ex_intro _ Examples.libflann eq_refl)) "radius_search")
    as (d & Hd & Hkeys & _).
  - do 8 right. left.
  - exists d. split; [exact Hd|exact Hkeys].
Defined.

Lemma double_search_registered_separately_witness :
  import_module Examples.installed_machine = (Ok Examples.installed_module, []) /\
  functions all_bindings !! "flann_radius_search_double"
  = Some (typed (radius_search_argtypes float64 float64)).
Proof.
  split; [exact import_installed_module|].
  destruct (double_search_registered_separately _ _ _ import_installed_module
              (ex_intro _ Examples.libflann eq_refl)
              {| attr := "radius_search";
                 prefix := "flann_radius_search_";
                 code := radius_search_code;
                 double_code := radius_search_double;
                 signature := radius_search_argtypes |})
    as (_ & _ & _ & _ & _ & _ & H & _).
  - do 2 right. left.
  - exact H.
Defined.

(** A file that exists and cannot be loaded is an error of its own: the
    exception of the loader is raised again. *)
Example unloadable_library_raises :
  load_flann_library Examples.broken_machine = (Raise OSError, []).
Proof. reflexivity. Qed.

(** With a library that lacks a symbol the import fails with
    [AttributeError]. *)
Example missing_symbol_raises :
  fst (run (fun sym => negb (String.eqb sym "flann_used_memory_int")) no_bindings
           module_body)
  = Raise (AttributeError "flann_used_memory_int").
Proof. vm_compute. reflexivity. Qed.

End BindingSpec.

(** ** ensure_2d_array *)

Module ArraysSpec.
Import Py Arrays.
Local Open Scope list_scope.

(** C10 (as amended): when [require] gives a 1-dimensional array of
    length [n >= 1], the result has shape [1 x n] and the same elements in
    the same order; a 2-dimensional array is returned as it is. *)
Theorem ensure_2d_array_shape {A kwargs : Type}
    (require : ndarray A -> list string -> kwargs -> result (ndarray A))
    (arr arr' : ndarray A) (flags : list string) (kw : kwargs) :
  require arr flags kw = Ok arr' ->
  (forall n : nat,
     shape arr' = [n] -> (1 <= n)%nat ->
     ensure_2d_array require arr flags kw
     = Ok {| shape := [1%nat; n]; data := data arr' |}) /\
  (forall rows cols : nat,
     shape arr' = [rows; cols] ->
     ensure_2d_array require arr flags kw = Ok arr').
Proof.
  intros Hreq. unfold ensure_2d_array. rewrite Hreq. simpl. split.
  - intros n Hshape Hn. rewrite Hshape. simpl.
    unfold reshape, size. rewrite Hshape. simpl.
    rewrite Nat.mul_1_r.
    destruct (Z.of_nat n <? 0) eqn:E1; [lia|].
    destruct (0 <=? Z.of_nat n) eqn:E2; [|lia]. simpl.
    rewrite Z.mul_1_r, Z_mod_same_full, Z.div_same by lia.
    destruct (Z.of_nat n =? 0) eqn:E0; [lia|]. simpl.
    by rewrite Nat2Z.id.
  - intros rows cols Hshape. by rewrite Hshape.
Qed.

Lemma ensure_2d_array_shape_witness :
  ensure_2d_array Examples.plain_require Examples.vector3 default_flags tt
  = Ok {| shape := [1%nat; 3%nat]; data := [10; 20; 30] |}.
Proof.
  refine (proj1 (ensure_2d_array_shape Examples.plain_require Examples.vector3
                   Examples.vector3 default_flags tt _)
                3%nat _ _).
  - reflexivity.
  - reflexivity.
  - lia.
Defined.

(** C10 as stated fails for length 0: the open dimension of the reshape
    cannot be determined and [ValueError] is raised. *)
Lemma ensure_2d_array_empty_raises :
  shape Examples.empty_vector = [0%nat] /\
  ensure_2d_array Examples.plain_require Examples.empty_vector default_flags tt
  = Raise ValueError.
Proof. split; reflexivity. Qed.

End ArraysSpec.

(** ** The index registry *)

Module RegistrySpec.
Import Registry.
Local Open Scope nat_scope.

Section RegistrySpec.
Context {E : engine}.
Implicit Types (r : registry E) (c : call E) (h : nat).

Lemma step_handles_below_next r c :
  handles_below_next r -> handles_below_next (snd (step r c)).
Proof.
  intros Hr h. destruct c; simpl; unfold allocate;
    repeat match goal with |- context [match ?x !! ?k with _ => _ end] =>
      destruct (x !! k) eqn:? end; simpl; try apply Hr.
  all: try (rewrite lookup_insert; case_decide; subst;
            [intros _|intros Hh; apply Hr in Hh]; try lia; apply Hr; eauto).
  rewrite lookup_delete. case_decide; [by intros []|apply Hr].
Qed.

Lemma reachable_handles_below_next r :
  reachable r -> handles_below_next r.
Proof.
  induction 1 as [|r c _ IH].
  - intros h. simpl. rewrite lookup_empty. by intros [].
  - by apply step_handles_below_next.
Qed.

Lemma step_stale h r c : stale h r -> stale h (snd (step r c)).
Proof.
  intros [Hdead Hlt]. destruct c; simpl; unfold allocate, stale;
    repeat match goal with |- context [match ?x !! ?k with _ => _ end] =>
      destruct (x !! k) eqn:? end; simpl; try done.
  all: try (rewrite lookup_insert_ne; [split; [done|lia]|]; try lia; congruence).
  rewrite lookup_delete. case_decide; done.
Qed.

Lemma run_stale h calls : forall r, stale h r -> stale h (run r calls).
Proof.
  induction calls as [|c calls IH]; intros r Hr; [done|].
  simpl. apply IH. by apply step_stale.
Qed.

Lemma stale_rejected h r c :
  stale h r -> operation_on h c = true -> step r c = (HandleError, r).
Proof.
  intros [Hdead _] Hop.
  destruct c; simpl in Hop; try done; apply Nat.eqb_eq in Hop as <-;
    simpl; by rewrite Hdead.
Qed.

(** C8: once a handle has been freed, every later search, add, remove,
    save or usedMemory on it is answered with the handle error and leaves
    the registry as it is, whatever calls were made in between. *)
Theorem freed_handle_is_rejected r h r1 (calls : list (call E)) c :
  reachable r ->
  step r (FreeIndex h) = (Done, r1) ->
  operation_on h c = true ->
  step (run r1 calls) c = (HandleError, run r1 calls).
Proof.
  intros Hr Hfree Hop. apply (stale_rejected h); [|done].
  apply run_stale. simpl in Hfree.
  destruct (live r !! h) as [i|] eqn:Hlive; [|done].
  injection Hfree as <-. split; simpl.
  - apply lookup_delete_eq.
  - apply (reachable_handles_below_next r Hr). by rewrite Hlive.
Qed.

End RegistrySpec.

Lemma freed_handle_is_rejected_witness :
  step Examples.built (FreeIndex 0) = (Done, Examples.freed) /\
  step (run Examples.freed Examples.later_calls) (FindNeighbors (E := Examples.point_store) 0 [1; 2]%Z)
  = (HandleError, run Examples.freed Examples.later_calls).
Proof.
  assert (step Examples.built (FreeIndex 0) = (Done, Examples.freed)) as Hfree
    by reflexivity.
  split; [exact Hfree|].
  apply (freed_handle_is_rejected Examples.built 0%nat Examples.freed
           Examples.later_calls (FindNeighbors (E := Examples.point_store) 0 [1; 2]%Z)).
  - apply (reachable_step empty_registry). apply reachable_empty.
  - exact Hfree.
  - reflexivity.
Defined.

End RegistrySpec.

(** * Further properties *)

(** ** CustomStructure *)

Module StructureFacts.
Import Py Ctypes CustomStructure FLANNParameters Derived.
Local Open Scope string_scope.
Local Open Scope list_scope.

Lemma str_in_true (k : string) (names : list string) :
  str_in k names = true <-> k ∈ names.
Proof.
  unfold str_in. rewrite existsb_exists. split.
  - intros (x & Hin & ->%String.eqb_eq). by apply list_elem_of_In.
  - intros Hin. exists k. split; [by apply list_elem_of_In|apply String.eqb_refl].
Qed.

Lemma setattr_frame (self self' : t) k v r :
  setattr self k v = (r, self') ->
  klass self' = klass self /\ __field_names self' = __field_names self /\
  forall k', k' <> k -> attrs self' !! k' = attrs self !! k'.
Proof.
  unfold setattr. destruct (str_get _ k) as [ty|]; [destruct (c_set ty v)|];
    intros [= _ <-]; simpl; repeat split; try done;
    intros k' Hk'; by rewrite lookup_insert_ne.
Qed.

Lemma setattr_keeps (self self' : t) k v r k' :
  setattr self k v = (r, self') ->
  is_Some (attrs self !! k') -> is_Some (attrs self' !! k').
Proof.
  unfold setattr. destruct (str_get _ k) as [ty|]; [destruct (c_set ty v)|];
    intros [= _ <-]; simpl; try done;
    rewrite lookup_insert; case_decide; eauto.
Qed.

Lemma update_frame (dict : list (string * pyval)) :
  forall (self self' : t) r,
    update self dict = (r, self') ->
    klass self' = klass self /\ __field_names self' = __field_names self /\
    forall k, k ∉ dict.*1 -> attrs self' !! k = attrs self !! k.
Proof.
  induction dict as [|[k v] rest IH]; intros self self' r; simpl.
  - by intros [= _ <-].
  - destruct (str_in k (__field_names self)); [|by intros [= _ <-]].
    destruct (setattr self k (__translate self k v)) as [[[]|e] s1] eqn:E.
    + intros H. destruct (IH _ _ _ H) as (Hc & Hn & Ha).
      destruct (setattr_frame _ _ _ _ _ E) as (Hc1 & Hn1 & Ha1).
      repeat split; [congruence|congruence|].
      intros k' Hk'. apply not_elem_of_cons in Hk' as [Hne Hk'].
      rewrite Ha by done. by apply Ha1.
    + intros [= _ <-]. destruct (setattr_frame _ _ _ _ _ E) as (Hc1 & Hn1 & Ha1).
      repeat split; [done|done|].
      intros k' Hk'. apply not_elem_of_cons in Hk' as [Hne Hk']. by apply Ha1.
Qed.

(** X1: [update], whether it returns or raises, leaves the class and the
    field names of the structure as they are and touches no attribute
    other than those of the keys of its dict. *)
Theorem update_touches_only_its_keys (self self' : t) dict r :
  update self dict = (r, self') ->
  klass self' = klass self /\
  keys self' = keys self /\
  forall k, k ∉ dict.*1 -> getattr self' k = getattr self k.
Proof.
  intros (Hc & Hn & Ha)%update_frame. repeat split; [done|done|].
  intros k Hk. unfold getattr. by rewrite Ha.
Qed.

Lemma update_touches_only_its_keys_witness :
  fst (update Examples.blank_params Examples.two_items)
  = Raise (KeyError "No such member: nope") /\
  keys (snd (update Examples.blank_params Examples.two_items))
  = keys Examples.blank_params /\
  getattr (snd (update Examples.blank_params Examples.two_items)) "checks"
  = getattr Examples.blank_params "checks".
Proof.
  split; [vm_compute; reflexivity|].
  destruct (update_touches_only_its_keys Examples.blank_params
              (snd (update Examples.blank_params Examples.two_items))
              Examples.two_items
              (fst (update Examples.blank_params Examples.two_items)))
    as (_ & Hkeys & Hother).
  - apply surjective_pairing.
  - split; [exact Hkeys|]. apply Hother.
    apply (bool_decide_eq_false_1 _). reflexivity.
Defined.


(** X2: [update] is the [__setitem__] of its items from first to last,
    stopped by the first that raises. *)
Theorem update_is_setitem_in_order (self : t) dict k v :
  update self (dict ++ [(k, v)]) =
  match update self dict with
  | (Ok _, self') => __setitem__ self' k v
  | (Raise e, self') => (Raise e, self')
  end.
Proof.
  revert self. induction dict as [|[k' v'] rest IH]; intros self; simpl.
  - unfold __setitem__. destruct (str_in k (__field_names self)); [|done].
    by destruct (setattr self k (__translate self k v)) as [[[]|e] s1].
  - destruct (str_in k' (__field_names self)); [|done].
    destruct (setattr self k' (__translate self k' v')) as [[[]|e] s1]; [|done].
    apply IH.
Qed.

Lemma setitem_has_fields (self self' : t) k v r :
  __setitem__ self k v = (r, self') -> has_fields self -> has_fields self'.
Proof.
  unfold __setitem__. destruct (str_in k (__field_names self)).
  - intros E Hself k' Hk'.
    destruct (setattr_frame _ _ _ _ _ E) as (_ & Hn & _).
    rewrite Hn in Hk'. eapply setattr_keeps; eauto.
  - by intros [= _ <-].
Qed.

Lemma update_has_fields (dict : list (string * pyval)) :
  forall (self self' : t) r,
    update self dict = (r, self') -> has_fields self -> has_fields self'.
Proof.
  induction dict as [|[k v] rest IH]; intros self self' r; simpl.
  - by intros [= _ <-].
  - destruct (str_in k (__field_names self)); [|by intros [= _ <-]].
    destruct (setattr self k (__translate self k v)) as [[[]|e] s1] eqn:E.
    + intros H Hself. apply (IH _ _ _ H). intros k' Hk'.
      destruct (setattr_frame _ _ _ _ _ E) as (_ & Hn & _).
      rewrite Hn in Hk'. eapply setattr_keeps; eauto.
    + intros [= _ <-] Hself k' Hk'.
      destruct (setattr_frame _ _ _ _ _ E) as (_ & Hn & _).
      rewrite Hn in Hk'. eapply setattr_keeps; eauto.
Qed.

Lemma updates_inv (P : t -> Prop) (dicts : list (list (string * pyval))) :
  (forall self dict, P self -> P (snd (update self dict))) ->
  forall self, P self -> P (updates self dicts).
Proof.
  intros Hstep. unfold updates.
  induction dicts as [|d dicts IH]; intros self Hself; simpl; [done|].
  apply IH. by apply Hstep.
Qed.

Lemma init_has_fields (cls : class) (self : t) :
  __init__ cls = Ok self ->
  klass self = cls /\ __field_names self = (_fields_ cls).*1 /\ has_fields self.
Proof.
  unfold __init__.
  destruct (update _ (_defaults_ cls)) as [[[]|e] self'] eqn:E; [|done].
  intros [= <-]. destruct (update_frame _ _ _ _ E) as (Hc & Hn & _).
  split; [done|]. split; [done|].
  apply (update_has_fields _ _ _ _ E).
  intros k Hk. simpl in *.
  destruct (list_to_map _ !! k) eqn:Hlook; [done|].
  apply not_elem_of_list_to_map_2 in Hlook. destruct Hlook.
  change (List.map ?f ?l) with (f <$> l). rewrite <- list_fmap_compose.
  by rewrite (list_fmap_ext _ fst (_fields_ cls)).
Qed.

(** X3: an object that [__init__] has made keeps, through any sequence of
    calls of [update] (raising or not), the keys of its class, and
    [__getitem__] on it never raises, whatever the key. *)
Theorem getitem_never_raises (cls : class) (self : t) dicts :
  __init__ cls = Ok self ->
  keys (updates self dicts) = (_fields_ cls).*1 /\
  forall k, exists v, __getitem__ (updates self dicts) k = Ok v.
Proof.
  intros (Hc & Hn & Hf)%init_has_fields.
  assert (__field_names (updates self dicts) = (_fields_ cls).*1
          /\ has_fields (updates self dicts)) as [Hn' Hf'].
  { apply (updates_inv (fun s => __field_names s = (_fields_ cls).*1 /\ has_fields s));
      [|done].
    intros s d [Hsn Hsf]. destruct (update s d) as [r s'] eqn:E. simpl. split.
    - destruct (update_frame _ _ _ _ E) as (_ & -> & _). done.
    - by apply (update_has_fields _ _ _ _ E). }
  split; [done|]. intros k. unfold __getitem__, getattr.
  destruct (str_in k _) eqn:Hk; [|by eexists].
  apply str_in_true in Hk. destruct (Hf' k Hk) as [v ->]. by eexists.
Qed.

Lemma getitem_never_raises_witness :
  match __init__ FLANNParameters with
  | Ok self =>
      exists v, __getitem__ (updates self [Examples.two_items; [("cores", PStr "all")]])
                            "trees" = Ok v
  | Raise _ => False
  end.
Proof.
  destruct (__init__ FLANNParameters) as [self|e] eqn:E.
  - exact (proj2 (getitem_never_raises FLANNParameters self
                    [Examples.two_items; [("cores", PStr "all")]] E) "trees").
  - assert (match __init__ FLANNParameters with Ok _ => true | Raise _ => false end = true)
      as Hok by (vm_compute; reflexivity).
    rewrite E in Hok. discriminate Hok.
Defined.

(** X4: a class whose defaults name a field it does not declare cannot be
    instantiated: [__init__] raises. *)
Theorem undeclared_default_breaks_init (cls : class) (k : string) :
  k ∈ (_defaults_ cls).*1 -> k ∉ (_fields_ cls).*1 ->
  exists e, __init__ cls = Raise e.
Proof.
  intros Hin Hnot. unfold __init__. cbv zeta.
  destruct (update _ (_defaults_ cls)) as [[[]|e] self'] eqn:E; [|by exists e].
  match type of E with
  | update ?s _ = _ =>
      destruct (ParametersSpec.update_unknown_raises (_defaults_ cls) s k Hnot Hin)
        as (e & s' & H)
  end.
  congruence.
Qed.


Lemma undeclared_default_breaks_init_witness :
  exists e, __init__ Examples.misdeclared = Raise e.
Proof.
  apply (undeclared_default_breaks_init Examples.misdeclared "cols").
  - right. left.
  - apply (bool_decide_eq_false_1 _). reflexivity.
Defined.

Lemma getitem_stored (a : gmap string pyval) f table v :
  (f, table) ∈ translation ->
  a !! f = Some v ->
  __getitem__ (instance a) f =
    Ok match List.find (fun item => py_eq (snd item) v) table with
       | Some (tk, _) => tk
       | None => v
       end.
Proof.
  intros (_ & _ & Htable & Hin & _)%ParametersSpec.translation_tables Hv.
  unfold __getitem__, __translate_back, getattr, instance.
  cbn [klass __field_names attrs _fields_ _translation_ FLANNParameters].
  change (List.map fst fields) with (fields.*1).
  by rewrite Hin, Htable, Hv.
Qed.

Lemma setitem_name (a : gmap string pyval) f table name code :
  (f, table) ∈ translation ->
  (PStr name, PInt code) ∈ table ->
  __setitem__ (instance a) f (PStr name) = (Ok tt, instance (<[f := PInt code]> a)).
Proof.
  intros Hf Hname. rewrite (ParametersSpec.setitem_translated _ _ _ _ Hf).
  unfold translation in Hf.
  repeat (apply elem_of_cons in Hf as [Hf|Hf]; [injection Hf as -> ->|]).
  4: by apply elem_of_nil in Hf.
  all: unfold algorithm_table, centers_init_table, log_level_table in Hname.
  all: repeat (apply elem_of_cons in Hname as [Hname|Hname]; [injection Hname as -> ->|]).
  all: try by apply elem_of_nil in Hname.
  all: reflexivity.
Qed.

(** X5: on the three translated fields, every name but ['default'] is
    read back as it was assigned; ['default'] is read back as another
    name, the first of the table with its code. *)
Theorem names_read_back (a : gmap string pyval) f table name code :
  (f, table) ∈ _translation_ FLANNParameters ->
  (PStr name, PInt code) ∈ table ->
  let after := snd (__setitem__ (instance a) f (PStr name)) in
  (name <> "default" -> __getitem__ after f = Ok (PStr name)) /\
  (name = "default" ->
   exists name', __getitem__ after f = Ok (PStr name') /\ name' <> "default" /\
                 (PStr name', PInt code) ∈ table).
Proof.
  intros Hf Hname after. subst after.
  rewrite (setitem_name _ _ _ _ _ Hf Hname). cbn [snd].
  rewrite (getitem_stored _ _ _ _ Hf (lookup_insert_eq _ _ _)).
  cbn [_translation_ FLANNParameters] in Hf. unfold translation in Hf.
  repeat (apply elem_of_cons in Hf as [Hf|Hf]; [injection Hf as -> ->|]).
  4: by apply elem_of_nil in Hf.
  all: unfold algorithm_table, centers_init_table, log_level_table in Hname.
  all: repeat (apply elem_of_cons in Hname as [Hname|Hname]; [injection Hname as -> ->|]).
  all: try by apply elem_of_nil in Hname.
  all: split; [intros Hne; try reflexivity; by destruct Hne|intros H; try discriminate H].
  all: eexists; split; [reflexivity|split; [discriminate|]].
  all: repeat first [by left|right].
Qed.

Lemma names_read_back_witness :
  __getitem__ (snd (__setitem__ Examples.blank_params "centers_init" (PStr "kmeanspp")))
              "centers_init"
  = Ok (PStr "kmeanspp").
Proof.
  refine (proj1 (names_read_back Examples.zeros "centers_init" centers_init_table
                   "kmeanspp" 2 _ _) _).
  - right. left.
  - do 2 right. left.
  - discriminate.
Defined.

(** X6: what reading a translated field gives is decided by the integer
    it holds: a name of the table with that code, never ['default'], when
    there is one, and the integer itself otherwise. *)
Theorem codes_read_back (a : gmap string pyval) f table z :
  (f, table) ∈ _translation_ FLANNParameters ->
  a !! f = Some (PInt z) ->
  (PInt z ∈ codes table ->
   exists name, __getitem__ (instance a) f = Ok (PStr name) /\ name <> "default" /\
                (PStr name, PInt z) ∈ table) /\
  (PInt z ∉ codes table -> __getitem__ (instance a) f = Ok (PInt z)).
Proof.
  intros Hf Hz. rewrite (getitem_stored _ _ _ _ Hf Hz).
  cbn [_translation_ FLANNParameters] in Hf. unfold translation in Hf.
  repeat (apply elem_of_cons in Hf as [Hf|Hf]; [injection Hf as -> ->|]).
  4: by apply elem_of_nil in Hf.
  all: unfold codes, algorithm_table, centers_init_table, log_level_table.
  all: cbn [List.find py_eq snd fmap list_fmap].
  all: repeat match goal with
         | |- context [Z.eqb ?c ?x] => destruct (Z.eqb_spec c x) as [Heq|?]
         end.
  all: split; [intros Hin|intros Hnot].
  all: try (rewrite <- Heq; eexists; split; [reflexivity|split; [discriminate|]];
            repeat first [by left|right]).
  all: try (exfalso; apply Hnot; rewrite <- Heq; repeat first [by left|right]).
  all: try reflexivity.
  all: exfalso; repeat (apply elem_of_cons in Hin as [[= Hin]|Hin]; [congruence|]).
  all: by apply elem_of_nil in Hin.
Qed.

Lemma codes_read_back_witness :
  __getitem__ (instance (<["algorithm" := PInt 7]> Examples.zeros)) "algorithm"
  = Ok (PInt 7).
Proof.
  refine (proj2 (codes_read_back (<["algorithm" := PInt 7]> Examples.zeros)
                   "algorithm" algorithm_table 7 _ _) _).
  - left.
  - apply lookup_insert_eq.
  - apply (bool_decide_eq_false_1 _). reflexivity.
Defined.

Lemma wrap_signed_small (z : Z) :
  - 2 ^ 31 <= z < 2 ^ 31 -> wrap_signed 32 z = z.
Proof.
  intros Hz. unfold wrap_signed.
  change (2 ^ (32 - 1)) with (2 ^ 31). rewrite Z.mod_small; lia.
Qed.

Lemma wrap_signed_range (z : Z) : - 2 ^ 31 <= wrap_signed 32 z < 2 ^ 31.
Proof.
  unfold wrap_signed. change (2 ^ (32 - 1)) with (2 ^ 31).
  pose proof (Z.mod_pos_bound (z + 2 ^ 31) (2 ^ 32) ltac:(lia)). lia.
Qed.

(** X7: on a [c_int] field without a translation table, assigning an
    integer never raises; the field then reads as an integer of 32 bits,
    equal to the one assigned modulo [2^32], and so to the one assigned
    when that fits. *)
Theorem int_field_round_trip (self : t) (k : string) (z : Z) :
  k ∈ __field_names self ->
  str_get (_fields_ (klass self)) k = Some c_int ->
  str_get (_translation_ (klass self)) k = None ->
  exists z',
    fst (__setitem__ self k (PInt z)) = Ok tt /\
    __getitem__ (snd (__setitem__ self k (PInt z))) k = Ok (PInt z') /\
    - 2 ^ 31 <= z' < 2 ^ 31 /\
    (z' - z) mod 2 ^ 32 = 0 /\
    (- 2 ^ 31 <= z < 2 ^ 31 -> z' = z).
Proof.
  intros Hk%str_in_true Hty Htr. exists (wrap_signed 32 z).
  unfold __setitem__, __translate, setattr. rewrite Hk, Htr, Hty. simpl.
  split; [done|]. split.
  - unfold __getitem__, __translate_back, getattr. simpl.
    by rewrite Hk, Htr, lookup_insert_eq.
  - split; [apply wrap_signed_range|]. split; [|apply wrap_signed_small].
    unfold wrap_signed. change (2 ^ (32 - 1)) with (2 ^ 31).
    rewrite (Z.mod_eq (z + 2 ^ 31) (2 ^ 32)) by lia.
    replace (z + 2 ^ 31 - 2 ^ 32 * ((z + 2 ^ 31) / 2 ^ 32) - 2 ^ 31 - z)
      with (- ((z + 2 ^ 31) / 2 ^ 32) * 2 ^ 32) by lia.
    apply Z.mod_mul. lia.
Qed.

Lemma int_field_round_trip_witness :
  __getitem__ (snd (__setitem__ Examples.blank_params "checks" (PInt 64))) "checks"
  = Ok (PInt 64).
Proof.
  destruct (int_field_round_trip Examples.blank_params "checks" 64)
    as (z' & _ & Hget & _ & _ & Hsmall).
  - right. left.
  - reflexivity.
  - reflexivity.
  - rewrite Hget, Hsmall; [reflexivity|lia].
Defined.

(** X8: a [FLANNParameters] can always be made, and every key then reads
    back its default, a float as the single-precision number nearest to
    it. *)
Theorem defaults_read_back :
  exists self,
    __init__ FLANNParameters = Ok self /\
    forall k v, (k, v) ∈ _defaults_ FLANNParameters ->
                __getitem__ self k = Ok (as_stored v).
Proof.
  assert (match __init__ FLANNParameters with
          | Ok self =>
              forallb (fun item => bool_decide (__getitem__ self (fst item)
                                                = Ok (as_stored (snd item))))
                      (_defaults_ FLANNParameters)
          | Raise _ => false
          end = true) as Hall by (vm_compute; reflexivity).
  destruct (__init__ FLANNParameters) as [self|e]; [|done].
  exists self. split; [done|]. intros k v Hin%list_elem_of_In.
  rewrite forallb_forall in Hall. specialize (Hall (k, v) Hin).
  by apply bool_decide_eq_true_1 in Hall.
Qed.

End StructureFacts.

(** ** load_flann_library *)

Module LoaderFacts.
Import Py Loader Derived.
Local Open Scope string_scope.
Local Open Scope list_scope.

Lemma only_prints_say (e : env) (line : string) : only_prints (say e line).
Proof. unfold say. destruct (verbose e); repeat constructor. Qed.

Lemma only_prints_app (out1 out2 : list event) :
  only_prints out1 -> only_prints out2 -> only_prints (out1 ++ out2).
Proof. intros H1 H2. apply Forall_app. by split. Qed.

Lemma try_libpaths_skip (e : env) (before rest : list path) :
  (forall q, q ∈ before -> cdll e q = None /\ path_exists e q = false) ->
  exists printed,
    only_prints printed /\
    try_libpaths e (before ++ rest)
    = (fst (try_libpaths e rest), printed ++ snd (try_libpaths e rest)).
Proof.
  induction before as [|q before IH]; intros Habsent.
  - exists []. split; [constructor|]. simpl. by destruct (try_libpaths e rest).
  - destruct IH as (printed & Hp & IH); [intros; apply Habsent; by right|].
    destruct (Habsent q) as [Hq1 Hq2]; [left|].
    simpl. rewrite Hq1, Hq2, IH.
    eexists. split; [|by rewrite !app_assoc].
    repeat apply only_prints_app; auto using only_prints_say.
Qed.

Lemma try_libpaths_prints (e : env) (paths : list path) :
  only_prints (snd (try_libpaths e paths)).
Proof.
  induction paths as [|p paths IH]; simpl; [constructor|].
  destruct (cdll e p); [|destruct (path_exists e p)]; simpl;
    repeat apply only_prints_app; auto using only_prints_say.
  destruct (try_libpaths e paths). simpl in *.
  repeat apply only_prints_app; auto using only_prints_say.
Qed.

Lemma try_fallback_prints (e : env) (names : list string) :
  only_prints (snd (try_fallback e names)).
Proof.
  induction names as [|n names IH]; simpl; [constructor|].
  destruct (cdll e (Rel [n])); simpl; [apply only_prints_say|].
  destruct (try_fallback e names). simpl in *.
  apply only_prints_app; auto using only_prints_say.
Qed.

(** How the outcome of the two loops decides what the function gives. *)
Lemma load_flann_library_cases (e : env) :
  let out0 := say e "[flann] Loading FLANN shared library" in
  let first := try_libpaths e (gen_possible_libpaths e) in
  let second := try_fallback e (possible_libnames e) in
  load_flann_library e =
  match fst first with
  | Raise x => (Raise x, out0 ++ snd first)
  | Ok (Some lib) =>
      (Ok (Some lib), out0 ++ snd first ++ [] ++ say e ("[flann] Using " +:+ repr lib))
  | Ok None =>
      match fst second with
      | Some lib =>
          (Ok (Some lib),
           out0 ++ snd first ++ snd second ++ say e ("[flann] Using " +:+ repr lib))
      | None =>
          (Ok None,
           out0 ++ snd first ++ snd second ++ [Warning "Unable to load C library for FLANN"])
      end
  end.
Proof.
  cbv zeta. unfold load_flann_library.
  destruct (try_libpaths e (gen_possible_libpaths e)) as [[[lib|]|x] out1]; simpl; try done.
  by destruct (try_fallback e (possible_libnames e)) as [[lib|] out2].
Qed.

(** X9: the candidates are tried in order and the first that loads is the
    library returned, when those before it do not exist; nothing is
    warned. *)
Theorem first_loadable_candidate_wins (e : env) before p after lib :
  gen_possible_libpaths e = before ++ p :: after ->
  (forall q, q ∈ before -> cdll e q = None /\ path_exists e q = false) ->
  cdll e p = Some lib ->
  exists out, load_flann_library e = (Ok (Some lib), out) /\ only_prints out.
Proof.
  intros Hgen Habsent Hp.
  destruct (try_libpaths_skip e before (p :: after) Habsent) as (printed & Hpr & Hskip).
  rewrite load_flann_library_cases. cbv zeta. rewrite Hgen, Hskip.
  simpl. rewrite Hp. simpl. eexists. split; [done|].
  repeat apply only_prints_app; auto using only_prints_say.
Qed.

(** X10: a candidate that exists and does not load ends the search with
    the error of the loader, whatever comes after it in the list and
    whether or not the bare names would load. *)
Theorem unloadable_candidate_aborts (e : env) before p after :
  gen_possible_libpaths e = before ++ p :: after ->
  (forall q, q ∈ before -> cdll e q = None /\ path_exists e q = false) ->
  cdll e p = None -> path_exists e p = true ->
  exists out, load_flann_library e = (Raise OSError, out) /\ only_prints out.
Proof.
  intros Hgen Habsent Hp Hex.
  destruct (try_libpaths_skip e before (p :: after) Habsent) as (printed & Hpr & Hskip).
  rewrite load_flann_library_cases. cbv zeta. rewrite Hgen, Hskip.
  simpl. rewrite Hp, Hex. simpl. eexists. split; [done|].
  repeat apply only_prints_app; auto using only_prints_say.
Qed.

Lemma first_loadable_candidate_wins_witness :
  exists out,
    load_flann_library Examples.installed_machine = (Ok (Some Examples.libflann), out).
Proof.
  destruct (first_loadable_candidate_wins Examples.installed_machine
              (take 1 (gen_possible_libpaths Examples.installed_machine))
              (_name Examples.libflann)
              (drop 2 (gen_possible_libpaths Examples.installed_machine))
              Examples.libflann) as (out & H & _).
  - reflexivity.
  - intros q [->|[]%elem_of_nil]%elem_of_cons. split; reflexivity.
  - reflexivity.
  - by exists out.
Defined.

Lemma unloadable_candidate_aborts_witness :
  exists out, load_flann_library Examples.broken_machine = (Raise OSError, out).
Proof.
  destruct (unloadable_candidate_aborts Examples.broken_machine []
              (Abs ["opt"; "pyflann"; "build"; "lib"; "pyflann"; "lib"; "libflann.dylib"])
              (drop 1 (gen_possible_libpaths Examples.broken_machine)))
    as (out & H & _).
  - reflexivity.
  - intros q []%elem_of_nil.
  - reflexivity.
  - reflexivity.
  - by exists out.
Defined.

Lemma try_fallback_skip (e : env) (before rest : list string) :
  (forall n, n ∈ before -> cdll e (Rel [n]) = None) ->
  exists printed,
    only_prints printed /\
    try_fallback e (before ++ rest)
    = (fst (try_fallback e rest), printed ++ snd (try_fallback e rest)).
Proof.
  induction before as [|n before IH]; intros Habsent.
  - exists []. split; [constructor|]. simpl. by destruct (try_fallback e rest).
  - destruct IH as (printed & Hp & IH); [intros; apply Habsent; by right|].
    simpl. rewrite (Habsent n), IH by left.
    eexists. split; [|by rewrite !app_assoc].
    repeat apply only_prints_app; auto using only_prints_say.
Qed.

Lemma try_libpaths_absent_all (e : env) (paths : list path) :
  (forall q, q ∈ paths -> cdll e q = None /\ path_exists e q = false) ->
  fst (try_libpaths e paths) = Ok None.
Proof.
  intros Habsent.
  destruct (try_libpaths_skip e paths [] Habsent) as (printed & _ & H).
  rewrite app_nil_r in H. by rewrite H.
Qed.

(** X11: when no candidate exists, the bare library names are handed to
    the loader in order and the first it can load is returned; a name it
    cannot load is passed over without an error. *)
Theorem fallback_on_bare_name (e : env) before name after lib :
  (forall q, q ∈ gen_possible_libpaths e -> cdll e q = None /\ path_exists e q = false) ->
  possible_libnames e = before ++ name :: after ->
  (forall n, n ∈ before -> cdll e (Rel [n]) = None) ->
  cdll e (Rel [name]) = Some lib ->
  exists out, load_flann_library e = (Ok (Some lib), out) /\ only_prints out.
Proof.
  intros Habsent Hnames Hbefore Hname.
  destruct (try_fallback_skip e before (name :: after) Hbefore) as (printed & Hpr & Hskip).
  rewrite load_flann_library_cases. cbv zeta.
  rewrite (try_libpaths_absent_all e _ Habsent), Hnames, Hskip.
  simpl. rewrite Hname. simpl. eexists. split; [done|].
  repeat apply only_prints_app;
    auto using only_prints_say, try_libpaths_prints.
Qed.

Lemma fallback_on_bare_name_witness :
  exists out,
    load_flann_library Examples.system_machine = (Ok (Some Examples.libflann), out).
Proof.
  destruct (fallback_on_bare_name Examples.system_machine ["flann.dll"] "libflann.dll" []
              Examples.libflann) as (out & H & _).
  - intros q Hq. split; [|reflexivity].
    set (l := gen_possible_libpaths Examples.system_machine) in Hq.
    vm_compute in l. subst l.
    repeat (apply elem_of_cons in Hq as [->|Hq]; [reflexivity|]).
    by apply elem_of_nil in Hq.
  - reflexivity.
  - intros n [->|[]%elem_of_nil]%elem_of_cons. reflexivity.
  - reflexivity.
  - by exists out.
Defined.

(** X12: a warning is issued exactly when the function returns [None],
    and it is then the one thing written after the printed lines; with a
    library or an exception nothing is warned. *)
Theorem warning_exactly_when_none (e : env) :
  match load_flann_library e with
  | (Ok None, out) =>
      exists printed,
        out = printed ++ [Warning "Unable to load C library for FLANN"] /\
        only_prints printed
  | (_, out) => only_prints out
  end.
Proof.
  rewrite load_flann_library_cases. cbv zeta.
  pose proof (try_libpaths_prints e (gen_possible_libpaths e)) as H1.
  pose proof (try_fallback_prints e (possible_libnames e)) as H2.
  destruct (fst (try_libpaths e _)) as [[lib|]|x].
  - repeat apply only_prints_app; auto using only_prints_say. constructor.
  - destruct (fst (try_fallback e _)) as [lib|].
    + repeat apply only_prints_app; auto using only_prints_say.
    + eexists. split; [by rewrite !app_assoc|].
      repeat apply only_prints_app; auto using only_prints_say.
  - repeat apply only_prints_app; auto using only_prints_say.
Qed.

Lemma quiet_say (e : env) (line : string) : verbose e = false -> say e line = [].
Proof. unfold say. by intros ->. Qed.

Lemma quiet_try_libpaths (e : env) (paths : list path) :
  verbose e = false -> snd (try_libpaths e paths) = [].
Proof.
  intros Hq. induction paths as [|p paths IH]; simpl; [done|].
  rewrite !(quiet_say e) by done.
  destruct (cdll e p); [done|]. destruct (path_exists e p); [done|].
  destruct (try_libpaths e paths). simpl in *. by rewrite IH.
Qed.

Lemma quiet_try_fallback (e : env) (names : list string) :
  verbose e = false -> snd (try_fallback e names) = [].
Proof.
  intros Hq. induction names as [|n names IH]; simpl; [done|].
  rewrite !(quiet_say e) by done.
  destruct (cdll e (Rel [n])); [done|].
  destruct (try_fallback e names). simpl in *. by rewrite IH.
Qed.

(** X13: without one of the verbose flags on the command line the
    function prints nothing: its whole output is the warning when it
    returns [None], and empty otherwise. *)
Theorem quiet_without_verbose_flag (e : env) :
  verbose e = false ->
  snd (load_flann_library e) =
  match fst (load_flann_library e) with
  | Ok None => [Warning "Unable to load C library for FLANN"]
  | _ => []
  end.
Proof.
  intros Hq. rewrite load_flann_library_cases. cbv zeta.
  pose proof (quiet_try_libpaths e (gen_possible_libpaths e) Hq) as H1.
  pose proof (quiet_try_fallback e (possible_libnames e) Hq) as H2.
  destruct (fst (try_libpaths e _)) as [[lib|]|x]; simpl.
  - by rewrite !(quiet_say e), H1.
  - destruct (fst (try_fallback e _)) as [lib|]; simpl.
    + by rewrite !(quiet_say e), H1, H2.
    + by rewrite !(quiet_say e), H1, H2.
  - by rewrite !(quiet_say e), H1.
Qed.

Lemma quiet_without_verbose_flag_witness :
  snd (load_flann_library Examples.installed_machine) = [].
Proof.
  rewrite (quiet_without_verbose_flag Examples.installed_machine); reflexivity.
Defined.

Lemma try_libpaths_outcome (e : env) (paths : list path) :
  match fst (try_libpaths e paths) with
  | Ok (Some lib) => exists p, p ∈ paths /\ cdll e p = Some lib
  | Ok None => forall p, p ∈ paths -> cdll e p = None /\ path_exists e p = false
  | Raise x => x = OSError /\ exists p, p ∈ paths /\ path_exists e p = true /\ cdll e p = None
  end.
Proof.
  induction paths as [|p paths IH]; simpl.
  - intros p []%elem_of_nil.
  - destruct (cdll e p) as [lib|] eqn:Hp; simpl.
    { exists p. split; [left|done]. }
    destruct (path_exists e p) eqn:Hex; simpl.
    { split; [done|]. exists p. split; [left|done]. }
    destruct (try_libpaths e paths) as [[[lib|]|x] out]; simpl in *.
    + destruct IH as (q & Hq & Hlib). exists q. split; [by right|done].
    + intros q [->|Hq]%elem_of_cons; [done|by apply IH].
    + destruct IH as (-> & q & Hq & H). split; [done|]. exists q. split; [by right|done].
Qed.

Lemma try_fallback_outcome (e : env) (names : list string) :
  match fst (try_fallback e names) with
  | Some lib => exists n, n ∈ names /\ cdll e (Rel [n]) = Some lib
  | None => forall n, n ∈ names -> cdll e (Rel [n]) = None
  end.
Proof.
  induction names as [|n names IH]; simpl.
  - intros n []%elem_of_nil.
  - destruct (cdll e (Rel [n])) as [lib|] eqn:Hn; simpl.
    { exists n. split; [left|done]. }
    destruct (try_fallback e names) as [[lib|] out]; simpl in *.
    + destruct IH as (q & Hq & Hlib). exists q. split; [by right|done].
    + intros q [->|Hq]%elem_of_cons; [done|by apply IH].
Qed.

(** X14: every outcome has its cause. A library returned is what the
    loader gave for a candidate path or a bare name; [None] is returned
    only if no candidate exists or loads and no bare name loads; the one
    exception raised is that of the loader, for a candidate that exists
    and does not load. *)
Theorem outcome_has_its_cause (e : env) :
  match fst (load_flann_library e) with
  | Ok (Some lib) =>
      (exists p, p ∈ gen_possible_libpaths e /\ cdll e p = Some lib) \/
      (exists n, n ∈ possible_libnames e /\ cdll e (Rel [n]) = Some lib)
  | Ok None =>
      (forall p, p ∈ gen_possible_libpaths e ->
                 cdll e p = None /\ path_exists e p = false) /\
      (forall n, n ∈ possible_libnames e -> cdll e (Rel [n]) = None)
  | Raise x =>
      x = OSError /\
      exists p, p ∈ gen_possible_libpaths e /\ path_exists e p = true /\ cdll e p = None
  end.
Proof.
  rewrite load_flann_library_cases. cbv zeta.
  pose proof (try_libpaths_outcome e (gen_possible_libpaths e)) as H1.
  pose proof (try_fallback_outcome e (possible_libnames e)) as H2.
  destruct (fst (try_libpaths e _)) as [[lib|]|x]; simpl.
  - by left.
  - destruct (fst (try_fallback e _)) as [lib|]; simpl; [by right|done].
  - done.
Qed.

Lemma root_dirs_suffix (rev_dir root : list string) :
  root ∈ root_dirs rev_dir <-> exists k, rev_dir = k ++ rev root.
Proof.
  induction rev_dir as [|a parent IH]; cbn [root_dirs].
  - change (rev []) with (@nil string). rewrite list_elem_of_singleton. split.
    + intros ->. by exists [].
    + intros (k & Hk). symmetry in Hk. apply app_eq_nil in Hk as [_ Hk].
      rewrite <- (rev_involutive root). by rewrite Hk.
  - rewrite elem_of_cons, IH. split.
    + intros [->|(k & ->)].
      * exists []. by rewrite rev_involutive.
      * by exists (a :: k).
    + intros ([|b k] & Hk); cbn [app] in Hk.
      * left. rewrite <- (rev_involutive root). by rewrite <- Hk.
      * right. injection Hk as -> ->. by exists k.
Qed.

(** X15: the candidate paths are exactly the paths [root/subdir/libname]
    with [root] the directory of the module or one of its ancestors, up to
    the root of the file system, [subdir] one of the build directories and
    [libname] a name of the library on the platform. *)
Theorem candidates_are_under_ancestors (e : env) (p : path) :
  p ∈ gen_possible_libpaths e <->
  exists root subdir libname,
    root `prefix_of` module_dir e /\
    subdir ∈ possible_subdirs e /\
    libname ∈ possible_libnames e /\
    p = Abs (root ++ subdir ++ [libname]).
Proof.
  unfold gen_possible_libpaths. rewrite list_elem_of_bind. split.
  - intros (root & (subdir & (libname & Hp & Hn)%list_elem_of_bind & Hs)%list_elem_of_bind
            & (k & Hk)%root_dirs_suffix).
    exists root, subdir, libname. apply list_elem_of_singleton in Hp.
    repeat split; try done. exists (rev k).
    rewrite <- (rev_involutive (module_dir e)), Hk, rev_app_distr.
    by rewrite rev_involutive.
  - intros (root & subdir & libname & [k Hk] & Hs & Hn & ->).
    exists root. split.
    + apply list_elem_of_bind. exists subdir. split; [|done].
      apply list_elem_of_bind. exists libname. split; [|done]. by left.
    + apply root_dirs_suffix. exists (rev k). by rewrite Hk, rev_app_distr.
Qed.

End LoaderFacts.

(** ** The registration of the entry points *)

Module BindingFacts.
Import Py Loader Binding Derived.
Local Open Scope string_scope.
Local Open Scope list_scope.

Lemma exec_cases exported (m : bindings) (s : stmt) :
  exec exported m s =
  match symbol_of s with
  | Some sym => if exported sym then exec everything m s else Raise (AttributeError sym)
  | None => exec everything m s
  end.
Proof. destruct s; simpl; try done; by destruct (exported sym). Qed.

Lemma exec_all_first_missing exported (code : list stmt) :
  forall m m' : bindings,
    exec_all everything m code = Ok m' ->
    exec_all exported m code =
    match missing_in exported code with
    | None => Ok m'
    | Some sym => Raise (AttributeError sym)
    end.
Proof.
  unfold missing_in.
  induction code as [|s code IH]; intros m m'; [done|].
  cbn [exec_all omap list_omap]. rewrite (exec_cases exported).
  destruct (exec everything m s) as [m1|x] eqn:E; [|done].
  cbn [mbind result_bind]. intros H. specialize (IH m1 m' H).
  destruct (symbol_of s) as [sym|]; [|exact IH].
  cbn [List.find]. by destruct (exported sym).
Qed.

Lemma define_each_failure exported (fmtstr : template) (mappings : list (string * dtype)) :
  forall m m' : bindings,
    define_each everything fmtstr m mappings = (Ok m', []) ->
    define_each exported fmtstr m mappings =
    match failing_instance exported fmtstr mappings with
    | None => (Ok m', [])
    | Some (sym, printed) => (Raise (AttributeError sym), printed)
    end.
Proof.
  induction mappings as [|ty tys IH]; intros m m'; [done|].
  cbn [define_each failing_instance].
  destruct (exec_all everything m (fmtstr ty.1 ty.2)) as [m1|x] eqn:E;
    [|by destruct x].
  intros H. rewrite (exec_all_first_missing _ _ _ _ E).
  destruct (missing_in exported (fmtstr ty.1 ty.2)); [done|]. by apply IH.
Qed.

Lemma run_failure exported (body : list step) :
  forall m m' : bindings,
    run everything m body = (Ok m', []) ->
    run exported m body =
    match first_failure exported body with
    | None => (Ok m', [])
    | Some (sym, printed) => (Raise (AttributeError sym), printed)
    end.
Proof.
  induction body as [|s body IH]; intros m m'; [done|].
  cbn [run first_failure].
  destruct (run_step everything m s) as [[m1|x] out1] eqn:E; [|done].
  destruct (run everything m1 body) as [r out'] eqn:E'.
  intros [= -> [-> ->]%app_eq_nil]. specialize (IH _ _ E').
  destruct s as [code|fmtstr]; cbn [run_step] in *.
  - injection E as E. rewrite (exec_all_first_missing _ _ _ _ E).
    destruct (missing_in exported code); [done|]. rewrite IH.
    by destruct (first_failure exported body) as [[sym printed]|].
  - unfold define_functions in *. rewrite (define_each_failure _ _ _ _ _ E).
    destruct (failing_instance exported fmtstr type_mappings) as [[sym printed]|]; [done|].
    rewrite IH. by destruct (first_failure exported body) as [[sym printed]|].
Qed.

Lemma missing_in_app exported (c1 c2 : list stmt) :
  missing_in exported (c1 ++ c2) =
  match missing_in exported c1 with
  | Some sym => Some sym
  | None => missing_in exported c2
  end.
Proof.
  unfold missing_in. induction c1 as [|s c1 IH]; [done|].
  cbn [app omap list_omap]. destruct (symbol_of s) as [sym|]; [|exact IH].
  cbn [List.find]. by destruct (negb (exported sym)).
Qed.

Lemma failing_instance_symbol exported (fmtstr : template)
    (mappings : list (string * dtype)) :
  fst <$> failing_instance exported fmtstr mappings =
  missing_in exported (concat (List.map (fun type_ => fmtstr type_.1 type_.2) mappings)).
Proof.
  induction mappings as [|ty tys IH]; [done|].
  cbn [failing_instance List.map concat]. rewrite missing_in_app.
  by destruct (missing_in exported (fmtstr ty.1 ty.2)).
Qed.

Lemma first_failure_symbol exported (body : list step) :
  fst <$> first_failure exported body = missing_in exported (statements body).
Proof.
  unfold statements. induction body as [|s body IH]; [done|].
  cbn [first_failure List.map concat]. rewrite missing_in_app.
  destruct s as [code|fmtstr].
  - by destruct (missing_in exported code).
  - unfold instances. rewrite <- failing_instance_symbol.
    by destruct (failing_instance exported fmtstr type_mappings).
Qed.

Lemma failing_instance_printed exported (fmtstr : template)
    (mappings : list (string * dtype)) sym printed :
  failing_instance exported fmtstr mappings = Some (sym, printed) ->
  exists type_, type_ ∈ mappings /\ printed = error_block fmtstr type_.
Proof.
  induction mappings as [|ty tys IH]; [done|]. cbn [failing_instance].
  destruct (missing_in exported (fmtstr ty.1 ty.2)).
  - intros [= _ <-]. exists ty. split; [left|done].
  - intros (ty' & Hin & ->)%IH. exists ty'. split; [by right|done].
Qed.

Lemma first_failure_printed exported (body : list step) sym printed :
  first_failure exported body = Some (sym, printed) ->
  printed = [] \/
  exists fmtstr type_,
    Define fmtstr ∈ body /\ type_ ∈ type_mappings /\ printed = error_block fmtstr type_.
Proof.
  induction body as [|s body IH]; [done|]. cbn [first_failure].
  destruct s as [code|fmtstr].
  - destruct (missing_in exported code); [intros [= _ <-]; by left|].
    intros [->|(f & ty & Hf & Hty & ->)]%IH; [by left|right].
    exists f, ty. split; [by right|done].
  - destruct (failing_instance exported fmtstr type_mappings) as [failure|] eqn:E.
    + intros [= ->]. right.
      destruct (failing_instance_printed _ _ _ _ _ E) as (ty & Hty & ->).
      exists fmtstr, ty. split; [left|done].
    + intros [->|(f & ty & Hf & Hty & ->)]%IH; [by left|right].
      exists f, ty. split; [by right|done].
Qed.

(** X16: the import of the module with a library succeeds exactly when
    the library exports every symbol the body looks up; otherwise it
    raises [AttributeError] for the first one that is missing, and no
    module is left, however many entry points were registered before.
    When the symbol is missing in an instance of a template, the error
    block of [define_functions] for that template and element type has
    been printed after the output of the loader; nothing else is. *)
Theorem import_needs_every_symbol (e : env) (lib : CDLL) (out : list event) :
  load_flann_library e = (Ok (Some lib), out) ->
  match first_missing (exports lib) with
  | None =>
      import_module e = (Ok {| flannlib := Some lib; registered := all_bindings |}, out)
  | Some sym =>
      exists printed,
        import_module e = (Raise (AttributeError sym), out ++ printed) /\
        first_failure (exports lib) module_body = Some (sym, printed) /\
        (printed = [] \/
         exists fmtstr type_,
           Define fmtstr ∈ module_body /\ type_ ∈ type_mappings /\
           printed = error_block fmtstr type_)
  end.
Proof.
  intros Hload. unfold import_module. rewrite Hload.
  rewrite (run_failure _ _ _ _ BindingSpec.run_everything).
  unfold first_missing, required_symbols.
  change (List.find _ (omap symbol_of (statements module_body)))
    with (missing_in (exports lib) (statements module_body)).
  rewrite <- first_failure_symbol.
  destruct (first_failure (exports lib) module_body) as [[sym printed]|] eqn:E; simpl.
  - exists printed. split; [done|]. split; [done|].
    by apply (first_failure_printed (exports lib) module_body sym).
  - by rewrite app_nil_r.
Qed.

Lemma import_needs_every_symbol_witness :
  import_module Examples.old_machine
  = (Raise (AttributeError "flann_add_points_float"),
     error_block add_points_code ("float", float32)).
Proof.
  pose proof (import_needs_every_symbol Examples.old_machine Examples.old_libflann []
                eq_refl) as H.
  assert (first_missing (exports Examples.old_libflann) = Some "flann_add_points_float")
    as Hsym by (vm_compute; reflexivity).
  rewrite Hsym in H. destruct H as (printed & Himport & Hfailure & _).
  assert (first_failure (exports Examples.old_libflann) module_body
          = Some ("flann_add_points_float", error_block add_points_code ("float", float32)))
    as Hblock by (vm_compute; reflexivity).
  rewrite Hblock in Hfailure. injection Hfailure as <-. exact Himport.
Defined.

(** X17: the function a dispatch dict gives for an element type is the
    symbol [flann_<family>_<C>] with [C] the C name of the type: [float]
    for [float32], [double] for [float64], [byte] for [uint8] and [int] for
    [int32]. *)
Theorem dispatch_follows_naming (e : env) (m : module) (out : list event) :
  import_module e = (Ok m, out) ->
  is_Some (flannlib m) ->
  forall family numpy, family ∈ families ->
    exists d, flann (registered m) !! family = Some d /\
              (numpy, symbol family (C_name numpy)) ∈ d.
Proof.
  intros Himport Hlib family numpy Hin%list_elem_of_In.
  rewrite (BindingSpec.import_module_registered e m out Himport Hlib).
  assert (forallb (fun family =>
            forallb (fun numpy =>
              match flann all_bindings !! family with
              | Some d => bool_decide ((numpy, symbol family (C_name numpy)) ∈ d)
              | None => false
              end) allowed_types) families = true) as Hall by (vm_compute; reflexivity).
  rewrite forallb_forall in Hall. specialize (Hall family Hin).
  rewrite forallb_forall in Hall. specialize (Hall numpy).
  destruct (flann all_bindings !! family) as [d|].
  - exists d. split; [done|]. apply (bool_decide_eq_true_1 _), Hall.
    destruct numpy; simpl; auto.
  - exfalso. assert (false = true); [|done]. apply Hall. destruct numpy; simpl; auto.
Qed.

Lemma dispatch_follows_naming_witness :
  exists d, flann all_bindings !! "save_index" = Some d /\
            (uint8, "flann_save_index_byte") ∈ d.
Proof.
  apply (dispatch_follows_naming Examples.installed_machine Examples.installed_module []
           BindingSpec.import_installed_module (ex_intro _ Examples.libflann eq_refl)
           "save_index" uint8).
  do 4 right. left.
Defined.

(** X18: the function registered for an element type declares that type
    for every array it reads, and the functions that are handed a dataset
    or a query do declare such an array. *)
Theorem inputs_have_the_element_type (e : env) (m : module) (out : list event) :
  import_module e = (Ok m, out) ->
  is_Some (flannlib m) ->
  forall family numpy, family ∈ families ->
    exists f tys,
      functions (registered m) !! symbol family (C_name numpy) = Some f /\
      argtypes f = Some tys /\
      Forall (fun dt => dt = numpy) (input_dtypes tys) /\
      (family ∈ data_families -> input_dtypes tys <> []).
Proof.
  intros Himport Hlib family numpy Hin%list_elem_of_In.
  rewrite (BindingSpec.import_module_registered e m out Himport Hlib).
  assert (forallb (fun family =>
            forallb (fun numpy =>
              match functions all_bindings !! symbol family (C_name numpy) with
              | Some {| restype := _; argtypes := Some tys |} =>
                  bool_decide (Forall (fun dt => dt = numpy) (input_dtypes tys))
                  && bool_decide (family ∈ data_families -> input_dtypes tys <> [])
              | _ => false
              end) allowed_types) families = true) as Hall by (vm_compute; reflexivity).
  rewrite forallb_forall in Hall. specialize (Hall family Hin).
  rewrite forallb_forall in Hall. specialize (Hall numpy).
  assert (In numpy allowed_types) as Hnumpy by (destruct numpy; simpl; auto).
  specialize (Hall Hnumpy).
  destruct (functions all_bindings !! symbol family (C_name numpy)) as [[r [tys|]]|];
    [|done|done].
  apply andb_true_iff in Hall as [H1%bool_decide_eq_true_1 H2%bool_decide_eq_true_1].
  by eexists _, tys.
Qed.

Lemma inputs_have_the_element_type_witness :
  exists f tys,
    functions all_bindings !! "flann_radius_search_int" = Some f /\
    argtypes f = Some tys /\
    input_dtypes tys = [int32].
Proof.
  destruct (inputs_have_the_element_type Examples.installed_machine
              Examples.installed_module [] BindingSpec.import_installed_module
              (ex_intro _ Examples.libflann eq_refl) "radius_search" int32)
    as (f & tys & Hf & Htys & _).
  - do 8 right. left.
  - exists f, tys. split; [exact Hf|]. split; [exact Htys|].
    vm_compute in Hf. injection Hf as <-. injection Htys as <-. reflexivity.
Defined.

(** X19: an index handle goes where it should: the functions that build
    or load an index return [FLANN_INDEX], those that work on an index
    take it as their first argument and do not return one, and the two
    that search or cluster a dataset directly have no handle at all. *)
Theorem handles_go_where_they_should (e : env) (m : module) (out : list event) :
  import_module e = (Ok m, out) ->
  is_Some (flannlib m) ->
  forall family numpy, family ∈ families ->
    exists f tys,
      functions (registered m) !! symbol family (C_name numpy) = Some f /\
      argtypes f = Some tys /\
      (family ∈ index_makers -> restype f = Some FLANN_INDEX /\ FLANN_INDEX ∉ tys) /\
      (family ∈ index_users -> head tys = Some FLANN_INDEX /\ restype f <> Some FLANN_INDEX) /\
      (family ∉ index_makers -> family ∉ index_users ->
       restype f = Some c_int /\ FLANN_INDEX ∉ tys).
Proof.
  intros Himport Hlib family numpy Hin%list_elem_of_In.
  rewrite (BindingSpec.import_module_registered e m out Himport Hlib).
  assert (forallb (fun family =>
            forallb (fun numpy =>
              match functions all_bindings !! symbol family (C_name numpy) with
              | Some {| restype := r; argtypes := Some tys |} =>
                  bool_decide (family ∈ index_makers ->
                               r = Some FLANN_INDEX /\ FLANN_INDEX ∉ tys)
                  && bool_decide (family ∈ index_users ->
                                  head tys = Some FLANN_INDEX /\ r <> Some FLANN_INDEX)
                  && bool_decide (family ∉ index_makers -> family ∉ index_users ->
                                  r = Some c_int /\ FLANN_INDEX ∉ tys)
              | _ => false
              end) allowed_types) families = true) as Hall by (vm_compute; reflexivity).
  rewrite forallb_forall in Hall. specialize (Hall family Hin).
  rewrite forallb_forall in Hall. specialize (Hall numpy).
  assert (In numpy allowed_types) as Hnumpy by (destruct numpy; simpl; auto).
  specialize (Hall Hnumpy).
  destruct (functions all_bindings !! symbol family (C_name numpy)) as [[r [tys|]]|];
    [|done|done].
  apply andb_true_iff in Hall as [[H1%bool_decide_eq_true_1 H2%bool_decide_eq_true_1]
                                   %andb_true_iff H3%bool_decide_eq_true_1].
  by eexists _, tys.
Qed.

Lemma handles_go_where_they_should_witness :
  exists f tys,
    functions all_bindings !! "flann_free_index_double" = Some f /\
    argtypes f = Some tys /\
    head tys = Some FLANN_INDEX.
Proof.
  destruct (handles_go_where_they_should Examples.installed_machine
              Examples.installed_module [] BindingSpec.import_installed_module
              (ex_intro _ Examples.libflann eq_refl) "free_index" float64)
    as (f & tys & Hf & Htys & _ & Huser & _).
  - do 10 right. left.
  - exists f, tys. split; [exact Hf|]. split; [exact Htys|].
    apply Huser. do 6 right. left.
Defined.

End BindingFacts.

(** ** ensure_2d_array on any input *)

Module ArraysFacts.
Import Py Arrays Derived.
Local Open Scope list_scope.

Section ArraysFacts.
Context {A kwargs : Type}.
Variable require : ndarray A -> list string -> kwargs -> result (ndarray A).

Lemma reshape_row (arr : ndarray A) (n : nat) :
  shape arr = [n] ->
  reshape arr [-1; Z.of_nat (size arr)] =
  if Nat.eqb n 0 then Raise ValueError
  else Ok {| shape := [1%nat; n]; data := data arr |}.
Proof.
  intros Hshape. unfold reshape, size. rewrite Hshape. simpl.
  rewrite Nat.mul_1_r.
  destruct (Z.ltb_spec (Z.of_nat n) 0) as [?|_]; [lia|].
  destruct (Z.leb_spec 0 (Z.of_nat n)) as [_|?]; [|lia]. simpl. rewrite Z.mul_1_r.
  destruct (Nat.eqb_spec n 0) as [->|Hn]; [done|].
  rewrite Z_mod_same_full, Z.div_same by lia.
  destruct (Z.eqb_spec (Z.of_nat n) 0) as [?|_]; [lia|]. simpl.
  by rewrite Nat2Z.id.
Qed.

Lemma one_dimension (arr : ndarray A) :
  length (shape arr) = 1%nat -> exists n, shape arr = [n].
Proof. destruct (shape arr) as [|n [|]]; try done. by exists n. Qed.

Lemma returned_array (arr r : ndarray A) flags kw :
  ensure_2d_array require arr flags kw = Ok r ->
  exists arr',
    require arr flags kw = Ok arr' /\
    data r = data arr' /\
    size r = size arr' /\
    (length (shape arr') = 1%nat -> shape r = [1%nat; size arr']) /\
    (length (shape arr') <> 1%nat -> r = arr').
Proof.
  unfold ensure_2d_array.
  destruct (require arr flags kw) as [arr'|x]; [|done]. simpl.
  intros H. exists arr'. split; [done|].
  destruct (Nat.eqb_spec (length (shape arr')) 1) as [Hone|Hmore].
  - destruct (one_dimension _ Hone) as [n Hn].
    rewrite (reshape_row _ n Hn) in H.
    destruct (Nat.eqb n 0); [done|]. simpl in H. injection H as <-. simpl.
    assert (size arr' = n) as -> by (unfold size; rewrite Hn; simpl; lia).
    repeat split; try done. unfold size. simpl. lia.
  - simpl in H. injection H as <-. repeat split; try done.
Qed.

(** X20: whenever the function returns, the array has the elements and
    the size of what [require] gave; a 1-dimensional array has become one
    row, and an array of any other number of dimensions, none or three as
    well as two, is returned as it is. *)
Theorem ensure_2d_array_returns (arr r : ndarray A) flags kw :
  ensure_2d_array require arr flags kw = Ok r ->
  exists arr',
    require arr flags kw = Ok arr' /\
    data r = data arr' /\
    size r = size arr' /\
    (length (shape arr') = 1%nat -> shape r = [1%nat; size arr']) /\
    (length (shape arr') <> 1%nat -> r = arr').
Proof. apply returned_array. Qed.

(** X21: the function raises in two cases only: when [require] raises,
    with the same exception, and when [require] gives a 1-dimensional
    array of no elements, with [ValueError]. *)
Theorem ensure_2d_array_raises (arr : ndarray A) flags kw (x : exn) :
  ensure_2d_array require arr flags kw = Raise x <->
  require arr flags kw = Raise x \/
  exists arr', require arr flags kw = Ok arr' /\ shape arr' = [0%nat] /\ x = ValueError.
Proof.
  unfold ensure_2d_array.
  destruct (require arr flags kw) as [arr'|y]; simpl.
  - destruct (Nat.eqb_spec (length (shape arr')) 1) as [Hone|Hmore].
    + destruct (one_dimension _ Hone) as [n Hn].
      rewrite (reshape_row _ n Hn).
      destruct (Nat.eqb_spec n 0) as [->|Hn0]; simpl; split.
      * intros [= <-]. right. by exists arr'.
      * intros [[=]|(a' & [= <-] & _ & ->)]; done.
      * done.
      * intros [[=]|(a' & [= <-] & Hz & _)]. rewrite Hz in Hn. by injection Hn as <-.
    + simpl. split; [done|].
      intros [[=]|(a' & [= <-] & Hz & _)]. by rewrite Hz in Hmore.
  - split; [intros [= ->]; by left|].
    intros [[= ->]|(a' & [=] & _)]; done.
Qed.

(** X22: applying the function to its own result changes nothing, when
    [require] has nothing left to convert in it. *)
Theorem ensure_2d_array_idempotent (arr r : ndarray A) flags kw :
  ensure_2d_array require arr flags kw = Ok r ->
  require r flags kw = Ok r ->
  ensure_2d_array require r flags kw = Ok r.
Proof.
  intros (arr' & Hreq & _ & _ & Hrow & Hsame)%returned_array Hr.
  unfold ensure_2d_array. rewrite Hr. simpl.
  destruct (Nat.eqb_spec (length (shape arr')) 1) as [Hone|Hmore].
  - by rewrite (Hrow Hone).
  - rewrite (Hsame Hmore). by destruct (Nat.eqb_spec (length (shape arr')) 1).
Qed.

End ArraysFacts.

Lemma ensure_2d_array_returns_witness :
  exists arr',
    Examples.plain_require Examples.cube default_flags tt = Ok arr' /\
    Examples.cube = arr'.
Proof.
  destruct (ensure_2d_array_returns Examples.plain_require Examples.cube Examples.cube
              default_flags tt eq_refl) as (arr' & Hreq & _ & _ & _ & Hsame).
  exists arr'. split; [exact Hreq|]. apply Hsame. simpl.
  injection Hreq as <-. discriminate.
Defined.

Lemma ensure_2d_array_raises_witness :
  ensure_2d_array Examples.plain_require Examples.empty_vector default_flags tt
  = Raise ValueError.
Proof.
  apply (ensure_2d_array_raises Examples.plain_require). right.
  exists Examples.empty_vector. repeat split.
Defined.

Lemma ensure_2d_array_idempotent_witness :
  ensure_2d_array Examples.plain_require
                  {| shape := [1%nat; 3%nat]; data := [10; 20; 30] |} default_flags tt
  = Ok {| shape := [1%nat; 3%nat]; data := [10; 20; 30] |}.
Proof.
  apply (ensure_2d_array_idempotent Examples.plain_require Examples.vector3);
    reflexivity.
Defined.

End ArraysFacts.
